(** * UMKM Business Prediction API: a shallow embedding of [main.py] and
    [schemas.py], and the properties of its specification.

    Python values are modelled as the interpreter has them: [float] is an
    IEEE-754 binary64 number ([spec_float] with precision 53 and maximal
    exponent 1024, operations rounding to nearest-even), [int] is an
    unbounded integer ([Z]), [str] is a sequence of Unicode code points,
    [dict] is a finite map.  Exceptions are explicit: a computation yields
    an [outcome]; handlers thread the process-wide state. *)

From Stdlib Require Import ZArith Lia List String Ascii Bool.
From Stdlib Require Import SpecFloat.
From stdpp Require Import base option list gmap.

Open Scope Z_scope.

(** ** Strings and exceptions *)

(** A Python [str]: its code points. *)
Abbreviation pystr := (list N).

(** An ASCII literal of the source. *)
Definition lit (s : string) : pystr :=
  (fun c => N_of_ascii c) <$> list_ascii_of_string s.

(** The non-ASCII code points of the literals of [test_database]. *)
Definition CHECK_MARK : pystr := [0x2705%N].
Definition CROSS_MARK : pystr := [0x274c%N].
Definition WARNING_SIGN : pystr := [0x26a0%N; 0xfe0f%N].

Inductive exn :=
| HTTPException (status_code : Z) (detail : pystr)
| RequestValidationError
| OverflowError (msg : pystr)
| ValueError (msg : pystr)
| Exception (msg : pystr).

(** [str(e)] for the exceptions whose text the code reads. *)
Definition exn_str (e : exn) : pystr :=
  match e with
  | HTTPException _ detail => detail
  | RequestValidationError => []
  | OverflowError msg | ValueError msg | Exception msg => msg
  end.

Inductive outcome (A : Type) :=
| Return (a : A)
| Raise (e : exn).
Arguments Return {A} a.
Arguments Raise {A} e.

#[global] Instance outcome_ret : MRet outcome := fun A a => Return a.
#[global] Instance outcome_bind : MBind outcome := fun A B f o =>
  match o with
  | Return a => f a
  | Raise e => Raise e
  end.

(** ** Python floats: IEEE-754 binary64 *)

Module PyFloat.

Definition prec : Z := 53.
Definition emax : Z := 1024.

Abbreviation float := spec_float.

Definition fmul : float -> float -> float := SFmul prec emax.
Definition fadd : float -> float -> float := SFadd prec emax.

(** [x > y] *)
Definition fgt (x y : float) : bool := SFltb y x.
(** [x >= y] *)
Definition fge (x y : float) : bool := SFleb y x.

Definition is_finite (x : float) : bool :=
  match x with
  | S754_zero _ | S754_finite _ _ _ => true
  | _ => false
  end.

Definition is_nan (x : float) : bool :=
  match x with
  | S754_nan => true
  | _ => false
  end.

(** The literals of [baseline_predict]: the binary64 numbers nearest to
    1.05, 0.5, 1.03 and 0.02. *)
Definition f0_0 : float := S754_zero false.
Definition f1_05 : float := S754_finite false 4728779608739021 (-52).
Definition f0_5 : float := S754_finite false 4503599627370496 (-53).
Definition f1_03 : float := S754_finite false 4638707616191611 (-52).
Definition f0_02 : float := S754_finite false 5764607523034235 (-58).

(** The conversion of an [int] operand of a mixed [int * float]
    product: correctly rounded, [OverflowError] when the rounded value is
    out of range. *)
Definition of_int (n : Z) : outcome float :=
  match binary_normalize prec emax n 0 false with
  | S754_infinity _ | S754_nan =>
      Raise (OverflowError (lit "int too large to convert to float"))
  | f => Return f
  end.

(** [int(x)]: truncation toward zero. *)
Definition to_int (x : float) : outcome Z :=
  match x with
  | S754_nan => Raise (ValueError (lit "cannot convert float NaN to integer"))
  | S754_infinity _ =>
      Raise (OverflowError (lit "cannot convert float infinity to integer"))
  | S754_zero _ => Return 0
  | S754_finite s m e =>
      let a := match e with
               | Zneg p => Z.pos m / 2 ^ Z.pos p
               | _ => Z.pos m * 2 ^ e
               end in
      Return (if s then - a else a)
  end.

(** [math.floor(x)], the rounding the specification writes. *)
Definition floor (x : float) : outcome Z :=
  match x with
  | S754_nan => Raise (ValueError (lit "cannot convert float NaN to integer"))
  | S754_infinity _ =>
      Raise (OverflowError (lit "cannot convert float infinity to integer"))
  | S754_zero _ => Return 0
  | S754_finite s m e =>
      Return (match e with
              | Zneg p => (if s then Z.neg m else Z.pos m) / 2 ^ Z.pos p
              | _ => (if s then Z.neg m else Z.pos m) * 2 ^ e
              end)
  end.

(** [max(0.0, x)]: the builtin keeps its first argument unless a later
    one compares greater. *)
Definition max0 (x : float) : float := if fgt x f0_0 then x else f0_0.

(** The value of a float in units of [2^-1074], the spacing of the
    subnormal numbers; every finite binary64 number is an integer in this
    unit.  The infinities stand at [2^2098], beyond every finite value;
    a NaN has no value. *)
Definition INF_RANK : Z := 2 ^ 2098.

(** A magnitude with its sign bit. *)
Definition signed (s : bool) (r : Z) : Z := if s then - r else r.

Definition rank (x : float) : option Z :=
  match x with
  | S754_nan => None
  | S754_zero _ => Some 0
  | S754_infinity s => Some (signed s INF_RANK)
  | S754_finite s m e => Some (signed s (Z.pos m * 2 ^ (e + 1074)))
  end.

(** [x <= y] as numbers, neither being a NaN. *)
Definition fle (x y : float) : Prop :=
  match rank x, rank y with
  | Some a, Some b => a <= b
  | _, _ => False
  end.

Definition fleb (x y : float) : bool :=
  match rank x, rank y with
  | Some a, Some b => a <=? b
  | _, _ => false
  end.

(** A well-formed binary64 value. *)
Definition valid (x : float) : bool := valid_binary prec emax x.

End PyFloat.

Import PyFloat.

(** ** The prediction function ([main.py], [baseline_predict]) *)

Definition baseline_predict (sales : float) (orders : Z) (marketing_spend : float)
  : outcome (float * Z) :=
  let predicted_sales := fadd (fmul sales f1_05) (fmul marketing_spend f0_5) in
  orders_f ← of_int orders;
  predicted_orders ← to_int (fadd (fmul orders_f f1_03) (fmul marketing_spend f0_02));
  Return (max0 predicted_sales,
          if 0 <? predicted_orders then predicted_orders else 0).

(** The formulas as the specification writes them, with [floor]. *)
Definition spec_predicted_sales (sales marketing_spend : float) : float :=
  max0 (fadd (fmul sales f1_05) (fmul marketing_spend f0_5)).

Definition spec_predicted_orders (orders : Z) (marketing_spend : float) : outcome Z :=
  orders_f ← of_int orders;
  n ← floor (fadd (fmul orders_f f1_03) (fmul marketing_spend f0_02));
  Return (Z.max 0 n).


(** ** Stored values and documents *)

Record date := { year : Z; month : Z; day : Z }.

(** A naive [datetime], as the driver returns them. *)
Record datetime :=
  { dt_date : date; hour : Z; minute : Z; second : Z; microsecond : Z }.

Inductive value :=
| VNone
| VBool (b : bool)
| VInt (n : Z)
| VFloat (f : float)
| VStr (s : pystr)
| VDate (d : date)
| VDatetime (dt : datetime)
| VObjectId (oid : N).

(** A Python [dict] with string keys. *)
Abbreviation document := (gmap pystr value).

(** [isinstance(v, (datetime, date))] *)
Definition is_date_or_datetime (v : value) : bool :=
  match v with
  | VDate _ | VDatetime _ => true
  | _ => false
  end.

(** Decimal digits of [n], zero-padded to [width] digits ([%0<width>d]
    for a non-negative [n]). *)
Fixpoint zero_padded (width : nat) (n : Z) : pystr :=
  match width with
  | O => []
  | S w => zero_padded w (n / 10) ++ [Z.to_N (48 + n mod 10)]
  end.

(** [date.isoformat()]: [YYYY-MM-DD]. *)
Definition date_isoformat (d : date) : pystr :=
  zero_padded 4 (year d) ++ lit "-" ++ zero_padded 2 (month d)
    ++ lit "-" ++ zero_padded 2 (day d).

(** [datetime.isoformat()] of a naive datetime:
    [YYYY-MM-DDTHH:MM:SS], followed by [.ffffff] when the microsecond
    is not zero. *)
Definition datetime_isoformat (dt : datetime) : pystr :=
  date_isoformat (dt_date dt) ++ lit "T" ++ zero_padded 2 (hour dt)
    ++ lit ":" ++ zero_padded 2 (minute dt)
    ++ lit ":" ++ zero_padded 2 (second dt)
    ++ (if microsecond dt =? 0 then []
        else lit "." ++ zero_padded 6 (microsecond dt)).

(** [v.isoformat()] for a value that passed [is_date_or_datetime]. *)
Definition isoformat (v : value) : pystr :=
  match v with
  | VDate d => date_isoformat d
  | VDatetime dt => datetime_isoformat dt
  | _ => []
  end.

(** ** The process-wide state *)

(** The contents of the document database: the named collections, each in
    storage order, and the next identifier the store will assign. *)
Record store :=
  { collections : gmap pystr (list document); next_oid : N }.

(** The outcome of reading an attribute of the database handle. *)
Inductive attribute :=
| AttrMissing
| AttrValue (v : value)
| AttrRaises (e : exn).

(** The database handle [db] imported from the [database] module: what its
    [name] attribute and its [list_collection_names()] method answer, and
    the documents behind it. *)
Record database :=
  { db_name : attribute;
    db_list_collection_names : outcome (list pystr);
    db_store : store }.

(** [db] is [None] when the database is not configured; [environ] is the
    process environment read by [os.getenv]. *)
Record world :=
  { db : option database; environ : gmap pystr pystr }.

(** A computation over a mutable state that may raise; the state reached
    when an exception is raised is kept, as in Python. *)
Definition M (S A : Type) : Type := S -> outcome A * S.

Definition ret {S A} (a : A) : M S A := fun s => (Return a, s).
Definition raise {S A} (e : exn) : M S A := fun s => (Raise e, s).
Definition bind {S A B} (m : M S A) (k : A -> M S B) : M S B :=
  fun s => match m s with
           | (Return a, s') => k a s'
           | (Raise e, s') => (Raise e, s')
           end.
Definition get {S} : M S S := fun s => (Return s, s).
Definition modify {S} (f : S -> S) : M S unit := fun s => (Return tt, f s).
Definition lift {S A} (o : outcome A) : M S A := fun s => (o, s).

(** [try: body except Exception as e: handler(e)] *)
Definition try_except {S A} (body : M S A) (handler : exn -> M S A) : M S A :=
  fun s => match body s with
           | (Return a, s') => (Return a, s')
           | (Raise e, s') => handler e s'
           end.

Declare Scope py_scope.
Delimit Scope py_scope with py.
Notation "x <- m ;; k" := (bind m (fun x => k))
  (at level 100, m at next level, right associativity) : py_scope.
Notation "m ;;; k" := (bind m (fun _ => k))
  (at level 100, right associativity) : py_scope.

Open Scope py_scope.

(** ** Request models ([main.py]) and their validation *)

Record MetricIn :=
  { mi_period : date; mi_sales : float; mi_orders : Z; mi_marketing_spend : float }.

Record PredictIn :=
  { pi_period : date; pi_sales : float; pi_orders : Z; pi_marketing_spend : float }.

Record ProfileIn :=
  { owner_name : pystr; business_name : pystr;
    email : option pystr; phone : option pystr;
    address : option pystr; industry : option pystr }.

Record ReportIn :=
  { title : pystr; notes : option pystr; status : pystr }.

Definition optional_str (o : option pystr) : value :=
  match o with
  | Some s => VStr s
  | None => VNone
  end.

(** [payload.model_dump()] *)
Definition MetricIn_model_dump (p : MetricIn) : document :=
  list_to_map
    [ (lit "period", VDate (mi_period p)); (lit "sales", VFloat (mi_sales p));
      (lit "orders", VInt (mi_orders p));
      (lit "marketing_spend", VFloat (mi_marketing_spend p)) ].

Definition PredictIn_model_dump (p : PredictIn) : document :=
  list_to_map
    [ (lit "period", VDate (pi_period p)); (lit "sales", VFloat (pi_sales p));
      (lit "orders", VInt (pi_orders p));
      (lit "marketing_spend", VFloat (pi_marketing_spend p)) ].

Definition ProfileIn_model_dump (p : ProfileIn) : document :=
  list_to_map
    [ (lit "owner_name", VStr (owner_name p));
      (lit "business_name", VStr (business_name p));
      (lit "email", optional_str (email p)); (lit "phone", optional_str (phone p));
      (lit "address", optional_str (address p));
      (lit "industry", optional_str (industry p)) ].

Definition ReportIn_model_dump (p : ReportIn) : document :=
  list_to_map
    [ (lit "title", VStr (title p)); (lit "notes", optional_str (notes p));
      (lit "status", VStr (status p)) ].

(** The validation of one field of a decoded request body.  A [float]
    field takes a number, an [int] field an integer, a [date] field a
    calendar date, a [str] field a string; the further coercions of the
    validation library (numbers and dates written as strings) are left
    out: a body is taken after they were applied. *)
Definition as_float (v : value) : option float :=
  match v with
  | VFloat f => Some f
  | VInt n => match of_int n with
              | Return f => Some f
              | Raise _ => None
              end
  | _ => None
  end.

Definition as_int (v : value) : option Z :=
  match v with
  | VInt n => Some n
  | _ => None
  end.

Definition as_date (v : value) : option date :=
  match v with
  | VDate d => Some d
  | _ => None
  end.

Definition as_str (v : value) : option pystr :=
  match v with
  | VStr s => Some s
  | _ => None
  end.

(** [Optional[str] = None]: an absent or null field is [None]. *)
Definition as_optional_str (o : option value) : option (option pystr) :=
  match o with
  | None | Some VNone => Some None
  | Some (VStr s) => Some (Some s)
  | Some _ => None
  end.

(** The constraint [ge] of a [Field]: [None] when the field declares no
    bound, [Some b] for [ge=b]. *)
Definition check_ge_float (ge : option float) (x : float) : option float :=
  match ge with
  | None => Some x
  | Some b => if fge x b then Some x else None
  end.

Definition check_ge_int (ge : option Z) (n : Z) : option Z :=
  match ge with
  | None => Some n
  | Some b => if b <=? n then Some n else None
  end.

(** [name: float = Field(..., ge=b)] and [name: int = Field(..., ge=b)] *)
Definition float_field (ge : option float) (v : value) : option float :=
  as_float v ≫= check_ge_float ge.

Definition int_field (ge : option Z) (v : value) : option Z :=
  as_int v ≫= check_ge_int ge.

(** [class MetricIn(BaseModel)] of [main.py]: four required fields, none
    with a bound. *)
Definition validate_MetricIn (body : document) : option MetricIn :=
  period ← body !! lit "period" ≫= as_date;
  sales ← body !! lit "sales" ≫= float_field None;
  orders ← body !! lit "orders" ≫= int_field None;
  marketing_spend ← body !! lit "marketing_spend" ≫= float_field None;
  Some {| mi_period := period; mi_sales := sales; mi_orders := orders;
          mi_marketing_spend := marketing_spend |}.

(** [class PredictIn(BaseModel)] of [main.py]. *)
Definition validate_PredictIn (body : document) : option PredictIn :=
  period ← body !! lit "period" ≫= as_date;
  sales ← body !! lit "sales" ≫= float_field None;
  orders ← body !! lit "orders" ≫= int_field None;
  marketing_spend ← body !! lit "marketing_spend" ≫= float_field None;
  Some {| pi_period := period; pi_sales := sales; pi_orders := orders;
          pi_marketing_spend := marketing_spend |}.

(** [class ProfileIn(BaseModel)] of [main.py]. *)
Definition validate_ProfileIn (body : document) : option ProfileIn :=
  owner ← body !! lit "owner_name" ≫= as_str;
  business ← body !! lit "business_name" ≫= as_str;
  em ← as_optional_str (body !! lit "email");
  ph ← as_optional_str (body !! lit "phone");
  ad ← as_optional_str (body !! lit "address");
  ind ← as_optional_str (body !! lit "industry");
  Some {| owner_name := owner; business_name := business; email := em;
          phone := ph; address := ad; industry := ind |}.

(** [class ReportIn(BaseModel)] of [main.py]: [status] defaults to
    ["open"]. *)
Definition validate_ReportIn (body : document) : option ReportIn :=
  t ← body !! lit "title" ≫= as_str;
  n ← as_optional_str (body !! lit "notes");
  st ← match body !! lit "status" with
       | None => Some (lit "open")
       | Some v => as_str v
       end;
  Some {| title := t; notes := n; status := st |}.

(** [class Metric(BaseModel)] of [schemas.py]: the same fields, each
    numeric one declared with [ge=0]. *)
Definition validate_Metric (body : document) : option MetricIn :=
  period ← body !! lit "period" ≫= as_date;
  sales ← body !! lit "sales" ≫= float_field (Some f0_0);
  orders ← body !! lit "orders" ≫= int_field (Some 0);
  marketing_spend ← body !! lit "marketing_spend" ≫= float_field (Some f0_0);
  Some {| mi_period := period; mi_sales := sales; mi_orders := orders;
          mi_marketing_spend := marketing_spend |}.

(** [class Prediction(BaseModel)] of [schemas.py], on the fields of a
    prediction request. *)
Definition validate_Prediction (body : document) : option PredictIn :=
  period ← body !! lit "period" ≫= as_date;
  sales ← body !! lit "sales" ≫= float_field (Some f0_0);
  orders ← body !! lit "orders" ≫= int_field (Some 0);
  marketing_spend ← body !! lit "marketing_spend" ≫= float_field (Some f0_0);
  Some {| pi_period := period; pi_sales := sales; pi_orders := orders;
          pi_marketing_spend := marketing_spend |}.

Section Application.

(** Python's builtin [str] on stored values. *)
Variable py_str : value -> pystr.

(** ** The persistence gateway (module [database]) *)

Definition with_store (d : database) (st : store) : database :=
  {| db_name := db_name d;
     db_list_collection_names := db_list_collection_names d;
     db_store := st |}.

Definition set_db (d : database) (w : world) : world :=
  {| db := Some d; environ := environ w |}.

Definition records_of (st : store) (collection_name : pystr) : list document :=
  default [] (collections st !! collection_name).

(** Modelled from the spec: [create_document] of the module [database],
    which is not among the sources.  It inserts the record into the named
    collection and returns the newly assigned identifier as a string; it
    fails with a storage error when the connection is unavailable. *)
Definition create_document (collection_name : pystr) (data : document)
  : M world pystr :=
  w <- get ;;
  match db w with
  | None => raise (Exception (lit "Database not available"))
  | Some d =>
      let st := db_store d in
      let oid := VObjectId (next_oid st) in
      let record := <[lit "_id" := oid]> data in
      modify (set_db (with_store d
        {| collections :=
             <[collection_name := records_of st collection_name ++ [record]]>
               (collections st);
           next_oid := N.succ (next_oid st) |})) ;;;
      ret (py_str oid)
  end.

(** The first [limit] entries of a result; all of them without a limit. *)
Definition cap (limit : option Z) (records : list document) : list document :=
  match limit with
  | None => records
  | Some n => take (Z.to_nat n) records
  end.

(** Modelled from the spec: [get_documents] of the module [database],
    which is not among the sources.  It returns the records of the
    collection in storage order, capped at [limit] entries when a limit
    is given. *)
Definition get_documents (collection_name : pystr) (limit : option Z)
  : M world (list document) :=
  w <- get ;;
  match db w with
  | None => raise (Exception (lit "Database not available"))
  | Some d =>
      ret (cap limit (records_of (db_store d) collection_name))
  end.

(** ** The handlers ([main.py]) *)

(** [if db is None: raise HTTPException(status_code=500, detail=...)] *)
Definition require_db : M world unit :=
  w <- get ;;
  match db w with
  | None => raise (HTTPException 500 (lit "Database not configured"))
  | Some _ => ret tt
  end.

Definition create_profile (payload : ProfileIn) : M world document :=
  require_db ;;;
  profile_id <- create_document (lit "profile") (ProfileIn_model_dump payload) ;;
  ret (list_to_map [ (lit "id", VStr profile_id);
                     (lit "message", VStr (lit "Profile created")) ]).

(** [i["_id"] = str(i["_id"]) if "_id" in i else None] *)
Definition stringify_id (i : document) : document :=
  <[lit "_id" := match i !! lit "_id" with
                 | Some v => VStr (py_str v)
                 | None => VNone
                 end]> i.

(** [if "period" in i and isinstance(i["period"], (datetime, date)):
       i["period"] = i["period"].isoformat()] *)
Definition format_period (i : document) : document :=
  match i !! lit "period" with
  | Some v =>
      if is_date_or_datetime v then <[lit "period" := VStr (isoformat v)]> i
      else i
  | None => i
  end.

Definition get_profiles : M world (list document) :=
  require_db ;;;
  items <- get_documents (lit "profile") None ;;
  ret (stringify_id <$> items).

Definition create_metric (payload : MetricIn) : M world document :=
  require_db ;;;
  metric_id <- create_document (lit "metric") (MetricIn_model_dump payload) ;;
  ret (list_to_map [ (lit "id", VStr metric_id);
                     (lit "message", VStr (lit "Metric saved")) ]).

Definition list_metrics (limit : option Z) : M world (list document) :=
  require_db ;;;
  items <- get_documents (lit "metric") limit ;;
  ret ((fun i => format_period (stringify_id i)) <$> items).

Definition predict (payload : PredictIn) : M world document :=
  require_db ;;;
  p <- lift (baseline_predict (pi_sales payload) (pi_orders payload)
                              (pi_marketing_spend payload)) ;;
  let '(psales, porders) := p in
  let data := <[lit "predicted_orders" := VInt porders]>
                (<[lit "predicted_sales" := VFloat psales]>
                   (PredictIn_model_dump payload)) in
  pred_id <- create_document (lit "prediction") data ;;
  ret (list_to_map [ (lit "id", VStr pred_id);
                     (lit "predicted_sales", VFloat psales);
                     (lit "predicted_orders", VInt porders) ]).

Definition create_report (payload : ReportIn) : M world document :=
  require_db ;;;
  rep_id <- create_document (lit "report") (ReportIn_model_dump payload) ;;
  ret (list_to_map [ (lit "id", VStr rep_id);
                     (lit "message", VStr (lit "Report created")) ]).

Definition list_reports (limit : option Z) : M world (list document) :=
  require_db ;;;
  items <- get_documents (lit "report") limit ;;
  ret (stringify_id <$> items).

(** The default of the query parameter [limit: Optional[int] = 50]. *)
Definition DEFAULT_LIMIT : option Z := Some 50.

(** ** The routes: the body is validated against the handler's model
    before the handler runs *)

Definition validated {P A : Type} (validate : document -> option P)
           (handler : P -> M world A) (body : document) : M world A :=
  match validate body with
  | Some payload => handler payload
  | None => raise RequestValidationError
  end.

Definition post_api_profile := validated validate_ProfileIn create_profile.
Definition post_api_metrics := validated validate_MetricIn create_metric.
Definition post_api_predict := validated validate_PredictIn predict.
Definition post_api_reports := validated validate_ReportIn create_report.

(** The status the framework answers with. *)
Definition status_of {A : Type} (o : outcome A) : Z :=
  match o with
  | Return _ => 200
  | Raise (HTTPException status_code _) => status_code
  | Raise RequestValidationError => 422
  | Raise _ => 500
  end.

End Application.

(** ** The diagnostic route [GET /test] ([main.py], [test_database]) *)

(** The [response] dictionary: its six keys are fixed. *)
Record diagnostics :=
  { backend : pystr;
    database_status : pystr;
    database_url : value;
    database_name : value;
    connection_status : pystr;
    collection_names : list pystr }.

Definition set_database_status (s : pystr) : M diagnostics unit :=
  modify (fun r =>
    {| backend := backend r; database_status := s;
       database_url := database_url r; database_name := database_name r;
       connection_status := connection_status r;
       collection_names := collection_names r |}).

Definition set_database_url (v : value) : M diagnostics unit :=
  modify (fun r =>
    {| backend := backend r; database_status := database_status r;
       database_url := v; database_name := database_name r;
       connection_status := connection_status r;
       collection_names := collection_names r |}).

Definition set_database_name (v : value) : M diagnostics unit :=
  modify (fun r =>
    {| backend := backend r; database_status := database_status r;
       database_url := database_url r; database_name := v;
       connection_status := connection_status r;
       collection_names := collection_names r |}).

Definition set_connection_status (s : pystr) : M diagnostics unit :=
  modify (fun r =>
    {| backend := backend r; database_status := database_status r;
       database_url := database_url r; database_name := database_name r;
       connection_status := s;
       collection_names := collection_names r |}).

Definition set_collection_names (l : list pystr) : M diagnostics unit :=
  modify (fun r =>
    {| backend := backend r; database_status := database_status r;
       database_url := database_url r; database_name := database_name r;
       connection_status := connection_status r;
       collection_names := l |}).

(** [hasattr(db, 'name')]: false on [AttributeError] only; any other
    exception of the lookup propagates. *)
Definition hasattr_name (d : database) : outcome bool :=
  match db_name d with
  | AttrMissing => Return false
  | AttrValue _ => Return true
  | AttrRaises e => Raise e
  end.

(** [db.name] *)
Definition getattr_name (d : database) : outcome value :=
  match db_name d with
  | AttrMissing => Raise (Exception (lit "object has no attribute 'name'"))
  | AttrValue v => Return v
  | AttrRaises e => Raise e
  end.

(** The truth value of [os.getenv(key)]: set and not empty. *)
Definition getenv_truthy (w : world) (key : pystr) : bool :=
  match environ w !! key with
  | Some (_ :: _) => true
  | _ => false
  end.

Definition initial_response : diagnostics :=
  {| backend := CHECK_MARK ++ lit " Running";
     database_status := CROSS_MARK ++ lit " Not Available";
     database_url := VNone;
     database_name := VNone;
     connection_status := lit "Not Connected";
     collection_names := [] |}.

(** The body of the outer [try]. *)
Definition probe_database (w : world) : M diagnostics unit :=
  match db w with
  | Some d =>
      set_database_status (CHECK_MARK ++ lit " Available") ;;;
      set_database_url (VStr (CHECK_MARK ++ lit " Configured")) ;;;
      has_name <- lift (hasattr_name d) ;;
      name <- (if has_name : bool then lift (getattr_name d)
               else ret (VStr (CHECK_MARK ++ lit " Connected"))) ;;
      set_database_name name ;;;
      set_connection_status (lit "Connected") ;;;
      try_except
        (collections <- lift (db_list_collection_names d) ;;
         set_collection_names (take 10 collections) ;;;
         set_database_status (CHECK_MARK ++ lit " Connected & Working"))
        (fun e =>
           set_database_status
             (WARNING_SIGN ++ lit "  Connected but Error: " ++ take 50 (exn_str e)))
  | None =>
      set_database_status (WARNING_SIGN ++ lit "  Available but not initialized")
  end.

Definition test_database (w : world) : outcome diagnostics :=
  let '(o, response) :=
    (try_except (probe_database w)
       (fun e => set_database_status
                   (CROSS_MARK ++ lit " Error: " ++ take 50 (exn_str e))) ;;;
     set_database_url
       (VStr (if getenv_truthy w (lit "DATABASE_URL")
              then CHECK_MARK ++ lit " Set" else CROSS_MARK ++ lit " Not Set")) ;;;
     set_database_name
       (VStr (if getenv_truthy w (lit "DATABASE_NAME")
              then CHECK_MARK ++ lit " Set" else CROSS_MARK ++ lit " Not Set")))
      initial_response in
  match o with
  | Return _ => Return response
  | Raise e => Raise e
  end.

(** ** Reference values for the properties *)

(** The answer of a handler that found the database unavailable. *)
Definition not_configured {A : Type} : outcome A :=
  Raise (HTTPException 500 (lit "Database not configured")).

(** The exception a probe of [test_database] runs into, if any: reading
    [name] comes first, listing the collections second. *)
Definition probe_failure (w : world) : option exn :=
  match db w with
  | None => None
  | Some d =>
      match db_name d, db_list_collection_names d with
      | AttrRaises e, _ => Some e
      | _, Raise e => Some e
      | _, Return _ => None
      end
  end.

(** The status string [GET /test] reports in each state of the storage. *)
Definition expected_status (w : world) : pystr :=
  match db w with
  | None => WARNING_SIGN ++ lit "  Available but not initialized"
  | Some d =>
      match db_name d, db_list_collection_names d with
      | AttrRaises e, _ => CROSS_MARK ++ lit " Error: " ++ take 50 (exn_str e)
      | _, Raise e =>
          WARNING_SIGN ++ lit "  Connected but Error: " ++ take 50 (exn_str e)
      | _, Return _ => CHECK_MARK ++ lit " Connected & Working"
      end
  end.

(** The store after one insertion. *)
Definition inserted (st : store) (name : pystr) (data : document) : store :=
  {| collections :=
       <[name := records_of st name ++ [<[lit "_id" := VObjectId (next_oid st)]> data]]>
         (collections st);
     next_oid := N.succ (next_oid st) |}.


(** ** A sample state, for concrete instances of the properties *)

(** [str] on a sample of values: an identifier prints its 24 digits. *)
Definition sample_str (v : value) : pystr :=
  match v with
  | VObjectId oid => zero_padded 24 (Z.of_N oid)
  | VStr s => s
  | VInt n => zero_padded 1 n
  | _ => lit "None"
  end.

Definition sample_metric : document :=
  list_to_map
    [ (lit "_id", VObjectId 7);
      (lit "period", VDate {| year := 2024; month := 3; day := 1 |});
      (lit "sales", VFloat (S754_finite false 8796093022208000 (-43)));
      (lit "orders", VInt 50);
      (lit "marketing_spend", VFloat (S754_finite false 7036874417766400 (-46))) ].

Definition sample_database : database :=
  {| db_name := AttrValue (VStr (lit "umkm"));
     db_list_collection_names := Return [lit "metric"];
     db_store := {| collections := {[ lit "metric" := [sample_metric] ]};
                    next_oid := 8 |} |}.

Definition sample_world : world :=
  {| db := Some sample_database; environ := ∅ |}.

(** The record [GET /api/metrics] returns for [sample_metric]. *)
Definition sample_listed : document :=
  <[lit "period" := VStr (lit "2024-03-01")]>
    (<[lit "_id" := VStr (lit "000000000000000000000007")]> sample_metric).

(** A request body with negative sales: [-1.0]. *)
Definition negative_sales_body : document :=
  list_to_map
    [ (lit "period", VDate {| year := 2024; month := 3; day := 1 |});
      (lit "sales", VFloat (S754_finite true 4503599627370496 (-52)));
      (lit "orders", VInt 0);
      (lit "marketing_spend", VFloat (S754_zero false)) ].

(** The float [orders * 1.03 + marketing_spend * 0.02] is finite: the
    integer converts to a float, and neither the product nor the sum
    overflows or is a NaN.  This is when [int(...)] returns. *)
Definition orders_value_finite (orders : Z) (marketing_spend : float) : bool :=
  match of_int orders with
  | Return orders_f =>
      is_finite (fadd (fmul orders_f f1_03) (fmul marketing_spend f0_02))
  | Raise _ => false
  end.

(** ** Rounding to binary64, on integers

    The float operations are characterised through the rank of their
    result: an exact integer computation followed by one rounding. *)

(** The quotient of [a] by [2^n], rounded to nearest, ties to even. *)
Definition rne_div (a n : Z) : Z :=
  let q := a / 2 ^ n in
  match 2 * (a mod 2 ^ n) ?= 2 ^ n with
  | Lt => q
  | Eq => if Z.even q then q else q + 1
  | Gt => q + 1
  end.

(** Rounding to binary64 of a non-negative number [v] given in units of
    [2^(-1074-p)]; the result is in units of [2^-1074].  The rounding grid
    has 53 significant bits, and is never finer than [2^-1074]. *)
Definition round_units (p v : Z) : Z :=
  let e := Z.max (Z.log2 v - 52) p in
  rne_div v e * 2 ^ (e - p).

Definition sround (p v : Z) : Z :=
  if v <? 0 then - round_units p (- v) else round_units p v.

(** The exponent of the rounding grid around [m * 2^e]. *)
Definition grid_exponent (m : positive) (e : Z) : Z :=
  Z.max (Z.log2 (Z.pos m) + e - 52) (-1074).

(** The float with sign [s] and value [q * 2^e], for a rounded mantissa
    [0 <= q <= 2^53]. *)
Definition pack (s : bool) (q e : Z) : float :=
  let '(q, e) := if q =? 2 ^ 53 then (2 ^ 52, e + 1) else (q, e) in
  match q with
  | 0 => S754_zero s
  | Z.pos p => if e <=? 971 then S754_finite s p e else S754_infinity s
  | Z.neg _ => S754_nan
  end.

(** A float that binary64 can hold: not a NaN, and when finite a mantissa
    below [2^53] at an exponent between [-1074] and [971]. *)
Definition representable (x : float) : bool :=
  match x with
  | S754_nan => false
  | S754_finite _ m e => (Z.pos m <? 2 ^ 53) && (-1074 <=? e) && (e <=? 971)
  | _ => true
  end.

(** Overflow: a rounded value of [2^1024] or more becomes an infinity. *)
Definition sclamp (r : Z) : Z := Z.max (- INF_RANK) (Z.min INF_RANK r).

(** The rank of the float nearest to [v * 2^(-1074-p)]. *)
Definition frnd (p v : Z) : Z := sclamp (sround p v).

(** The rank of a float sum from the ranks of its operands; [None] is
    the NaN of [inf + (-inf)]. *)
Definition eadd (a b : Z) : option Z :=
  if Z.abs a =? INF_RANK then (if b =? - a then None else Some a)
  else if Z.abs b =? INF_RANK then Some b
  else Some (frnd 0 (a + b)).

(** The rank of [max(0.0, x)] from the rank of [x]. *)
Definition opt0 (o : option Z) : Z :=
  match o with
  | Some r => Z.max 0 r
  | None => 0
  end.

(** ** Reference definitions for the routes *)

(** The fields a model declares without a default. *)
Definition MetricIn_required : list pystr :=
  [lit "period"; lit "sales"; lit "orders"; lit "marketing_spend"].
Definition ProfileIn_required : list pystr :=
  [lit "owner_name"; lit "business_name"].
Definition ReportIn_required : list pystr := [lit "title"].

(** The store [st'] is [st] with one record more, at the end of the
    collection [name]; the other collections are as they were. *)
Definition appended (st st' : store) (name : pystr) (record : document) : Prop :=
  records_of st' name = records_of st name ++ [record]
  /\ forall other : pystr, other <> name -> records_of st' other = records_of st other.

(** What a creating handler does on a configured database [d]: it answers
    with the string of the new identifier and leaves a state whose store
    has the record [data], with its ["_id"], appended to [name]. *)
Definition created (py_str : value -> pystr) (w : world) (d : database)
           (name : pystr) (data : document) (o : outcome document * world) : Prop :=
  exists (answer : document) (d1 : database),
    fst o = Return answer
    /\ answer !! lit "id" = Some (VStr (py_str (VObjectId (next_oid (db_store d)))))
    /\ db (snd o) = Some d1
    /\ environ (snd o) = environ w
    /\ appended (db_store d) (db_store d1) name
                (<[lit "_id" := VObjectId (next_oid (db_store d))]> data).

(** Sample payloads. *)
Definition sample_ProfileIn : ProfileIn :=
  {| owner_name := lit "Sari"; business_name := lit "Warung Sari";
     email := None; phone := None; address := None;
     industry := Some (lit "food") |}.

Definition sample_MetricIn : MetricIn :=
  {| mi_period := {| year := 2024; month := 4; day := 1 |};
     mi_sales := S754_finite false 8796093022208000 (-43);
     mi_orders := 50;
     mi_marketing_spend := S754_finite false 7036874417766400 (-46) |}.

Definition sample_ReportIn : ReportIn :=
  {| title := lit "April"; notes := None; status := lit "open" |}.

(** The limit [limit] leaves room for one record more than [n]. *)
Definition room_for_one_more (limit : option Z) (n : nat) : Prop :=
  match limit with
  | None => True
  | Some m => (n < Z.to_nat m)%nat
  end.

(** The records [items] are the records [stored], position by position,
    up to the values under the keys [changed]. *)
Definition same_except (changed : list pystr) (stored items : list document) : Prop :=
  length items = length stored
  /\ forall (k : nat) (i r : document) (key : pystr),
       stored !! k = Some i -> items !! k = Some r ->
       key ∉ changed -> r !! key = i !! key.

(** The handle on which [test_database] gets past reading [db.name]: the
    database is configured and the lookup of the attribute does not raise
    (a missing attribute does not: [hasattr] answers false). *)
Definition name_probe_passes (w : world) : bool :=
  match db w with
  | Some d => match db_name d with
              | AttrRaises _ => false
              | _ => true
              end
  | None => false
  end.

(** The names [db.list_collection_names()] hands over, when it is reached
    and returns. *)
Definition listed_collections (w : world) : option (list pystr) :=
  match db w with
  | Some d => if name_probe_passes w
              then match db_list_collection_names d with
                   | Return l => Some l
                   | Raise _ => None
                   end
              else None
  | None => None
  end.

(** An exception of the arithmetic of [baseline_predict]. *)
Definition is_arithmetic_error (e : exn) : bool :=
  match e with
  | OverflowError _ | ValueError _ => true
  | _ => false
  end.

Definition sample_PredictIn : PredictIn :=
  {| pi_period := {| year := 2024; month := 4; day := 1 |};
     pi_sales := S754_finite false 8796093022208000 (-43);
     pi_orders := 50;
     pi_marketing_spend := S754_finite false 7036874417766400 (-46) |}.

(** All the fields a model declares, with or without a default. *)
Definition MetricIn_fields : list pystr := MetricIn_required.
Definition ProfileIn_fields : list pystr :=
  ProfileIn_required ++ [lit "email"; lit "phone"; lit "address"; lit "industry"].
Definition ReportIn_fields : list pystr :=
  ReportIn_required ++ [lit "notes"; lit "status"].

(** Two bodies that agree on the keys [fields]. *)
Definition agree_on (fields : list pystr) (body body' : document) : Prop :=
  forall k : pystr, k ∈ fields -> body !! k = body' !! k.

(** * Properties *)

(** ** The handlers on an unconfigured and on a configured database *)

Section HandlerFacts.

Variable py_str : value -> pystr.

Lemma require_db_none (w : world) :
  db w = None ->
  require_db w = (Raise (HTTPException 500 (lit "Database not configured")), w).
Proof. intros H. unfold require_db, bind, get. cbn. rewrite H. reflexivity. Qed.

Lemma require_db_some (w : world) (d : database) :
  db w = Some d -> require_db w = (Return tt, w).
Proof. intros H. unfold require_db, bind, get. cbn. rewrite H. reflexivity. Qed.

Lemma get_documents_some (w : world) (d : database) (name : pystr) (limit : option Z) :
  db w = Some d ->
  get_documents name limit w
  = (Return (cap limit (records_of (db_store d) name)), w).
Proof. intros H. unfold get_documents, bind, get. cbn. rewrite H. reflexivity. Qed.

Lemma get_profiles_some (w : world) (d : database) :
  db w = Some d ->
  get_profiles py_str w
  = (Return (stringify_id py_str <$> records_of (db_store d) (lit "profile")), w).
Proof.
  intros H. unfold get_profiles, bind.
  rewrite (require_db_some w d H), (get_documents_some w d _ _ H). reflexivity.
Qed.

Lemma list_metrics_some (w : world) (d : database) (limit : option Z) :
  db w = Some d ->
  list_metrics py_str limit w
  = (Return ((fun i => format_period (stringify_id py_str i))
               <$> cap limit (records_of (db_store d) (lit "metric"))), w).
Proof.
  intros H. unfold list_metrics, bind.
  rewrite (require_db_some w d H), (get_documents_some w d _ _ H). reflexivity.
Qed.

Lemma list_reports_some (w : world) (d : database) (limit : option Z) :
  db w = Some d ->
  list_reports py_str limit w
  = (Return (stringify_id py_str <$> cap limit (records_of (db_store d) (lit "report"))), w).
Proof.
  intros H. unfold list_reports, bind.
  rewrite (require_db_some w d H), (get_documents_some w d _ _ H). reflexivity.
Qed.

Lemma cap_length (limit : option Z) (n : Z) (l : list document) :
  limit = Some n -> (length (cap limit l) <= Z.to_nat n)%nat.
Proof. intros ->. cbn. rewrite length_take. lia. Qed.

End HandlerFacts.

Section RecordFacts.

Variable py_str : value -> pystr.

Lemma period_ne_id : lit "period" <> lit "_id".
Proof. vm_compute. discriminate. Qed.

Lemma cap_lookup (limit : option Z) (l : list document) (k : nat) (i : document) :
  cap limit l !! k = Some i -> l !! k = Some i.
Proof.
  destruct limit as [n|]; cbn; [|tauto].
  intros H. apply lookup_take_Some in H. tauto.
Qed.

Lemma stringify_id_lookup (i : document) :
  stringify_id py_str i !! lit "_id"
  = Some (match i !! lit "_id" with
          | Some v => VStr (py_str v)
          | None => VNone
          end).
Proof. unfold stringify_id. apply lookup_insert_eq. Qed.

Lemma format_period_id (i : document) :
  format_period i !! lit "_id" = i !! lit "_id".
Proof.
  unfold format_period.
  destruct (i !! lit "period") as [v|]; [|reflexivity].
  destruct (is_date_or_datetime v); [|reflexivity].
  apply lookup_insert_ne, period_ne_id.
Qed.

Lemma format_period_lookup (i : document) :
  format_period (stringify_id py_str i) !! lit "period"
  = match i !! lit "period" with
    | Some (VDate x) => Some (VStr (date_isoformat x))
    | Some (VDatetime x) => Some (VStr (datetime_isoformat x))
    | other => other
    end.
Proof.
  assert (Hp : stringify_id py_str i !! lit "period" = i !! lit "period").
  { unfold stringify_id. apply lookup_insert_ne.
    intros E. symmetry in E. exact (period_ne_id E). }
  unfold format_period. rewrite Hp.
  destruct (i !! lit "period") as [v|] eqn:Hv; [|exact Hp].
  destruct v; unfold is_date_or_datetime, isoformat; cbv beta iota;
    try exact Hp; apply lookup_insert_eq.
Qed.

(** What a list route returns at position [k]: the stored record at
    that position, its ["_id"] rewritten. *)
Lemma listed_record (w w' : world) (limit : option Z)
      (items : list document) (k : nat) (r : document) :
  get_profiles py_str w = (Return items, w')
  \/ list_metrics py_str limit w = (Return items, w')
  \/ list_reports py_str limit w = (Return items, w') ->
  items !! k = Some r ->
  exists (d : database) (name : pystr) (i : document),
    db w = Some d
    /\ records_of (db_store d) name !! k = Some i
    /\ r !! lit "_id" = Some (match i !! lit "_id" with
                              | Some v => VStr (py_str v)
                              | None => VNone
                              end)
    /\ w' = w.
Proof.
  intros H Hk.
  destruct (db w) as [d|] eqn:Hd; cycle 1.
  { unfold get_profiles, list_metrics, list_reports, bind in H.
    rewrite (require_db_none w Hd) in H.
    destruct H as [H|[H|H]]; discriminate. }
  rewrite (get_profiles_some py_str w d Hd),
    (list_metrics_some py_str w d limit Hd),
    (list_reports_some py_str w d limit Hd) in H.
  exists d.
  destruct H as [H|[H|H]]; injection H as <- <-;
    rewrite list_lookup_fmap in Hk;
    match type of Hk with
    | context [?l !! k] => destruct (l !! k) as [i|] eqn:Hi; [|discriminate]
    end;
    injection Hk as <-.
  - exists (lit "profile"), i. repeat split; try assumption.
    apply stringify_id_lookup.
  - exists (lit "metric"), i. repeat split.
    + exact (cap_lookup _ _ _ _ Hi).
    + rewrite format_period_id. apply stringify_id_lookup.
  - exists (lit "report"), i. repeat split.
    + exact (cap_lookup _ _ _ _ Hi).
    + apply stringify_id_lookup.
Qed.

End RecordFacts.

Section InsertFacts.

Variable py_str : value -> pystr.

Lemma create_document_some (w : world) (d : database) (name : pystr)
      (data : document) :
  db w = Some d ->
  create_document py_str name data w
  = (Return (py_str (VObjectId (next_oid (db_store d)))),
     set_db (with_store d (inserted (db_store d) name data)) w).
Proof.
  intros H. unfold create_document, bind, get, modify, ret. cbv beta iota.
  rewrite H. reflexivity.
Qed.

Lemma create_metric_some (w : world) (d : database) (payload : MetricIn) :
  db w = Some d ->
  create_metric py_str payload w
  = (Return (list_to_map
               [ (lit "id", VStr (py_str (VObjectId (next_oid (db_store d)))));
                 (lit "message", VStr (lit "Metric saved")) ]),
     set_db (with_store d (inserted (db_store d) (lit "metric")
                             (MetricIn_model_dump payload))) w).
Proof.
  intros H. unfold create_metric, bind.
  rewrite (require_db_some w d H), (create_document_some w d _ _ H).
  reflexivity.
Qed.

Lemma predict_some (w : world) (d : database) (payload : PredictIn)
      (psales : float) (porders : Z) :
  db w = Some d ->
  baseline_predict (pi_sales payload) (pi_orders payload)
                   (pi_marketing_spend payload) = Return (psales, porders) ->
  predict py_str payload w
  = (Return (list_to_map
               [ (lit "id", VStr (py_str (VObjectId (next_oid (db_store d)))));
                 (lit "predicted_sales", VFloat psales);
                 (lit "predicted_orders", VInt porders) ]),
     set_db (with_store d
               (inserted (db_store d) (lit "prediction")
                  (<[lit "predicted_orders" := VInt porders]>
                     (<[lit "predicted_sales" := VFloat psales]>
                        (PredictIn_model_dump payload))))) w).
Proof.
  intros H Hp. unfold predict, bind, lift.
  rewrite (require_db_some w d H), Hp. cbv beta iota.
  rewrite (create_document_some w d _ _ H). reflexivity.
Qed.

Lemma records_of_inserted (st : store) (name : pystr) (data : document) :
  records_of (inserted st name data) name
  = records_of st name ++ [<[lit "_id" := VObjectId (next_oid st)]> data].
Proof. unfold records_of at 1, inserted. cbn. rewrite lookup_insert_eq. reflexivity. Qed.

End InsertFacts.

(** ** The worked example of the specification: sales 1000, orders 50,
    marketing spend 100 give 1100.0 and 53 *)
Example predict_1000_50_100 :
  baseline_predict (S754_finite false 8796093022208000 (-43)) 50
                   (S754_finite false 7036874417766400 (-46))
  = Return (S754_finite false 4837851162214400 (-42), 53).
Proof. vm_compute. reflexivity. Qed.

(** ** Storage unavailable *)

(** C4: with the database handle unavailable, each of the seven [/api]
    handlers raises [HTTPException(500, "Database not configured")] and
    leaves the state as it was: nothing is inserted anywhere. *)
Theorem unconfigured_database_is_500
  (py_str : value -> pystr) (env : gmap pystr pystr)
  (profile : ProfileIn) (metric : MetricIn) (input : PredictIn)
  (report : ReportIn) (limit : option Z) :
  let w := {| db := None; environ := env |} in
  create_profile py_str profile w = (not_configured, w)
  /\ get_profiles py_str w = (not_configured, w)
  /\ create_metric py_str metric w = (not_configured, w)
  /\ list_metrics py_str limit w = (not_configured, w)
  /\ predict py_str input w = (not_configured, w)
  /\ create_report py_str report w = (not_configured, w)
  /\ list_reports py_str limit w = (not_configured, w)
  /\ status_of (@not_configured unit) = 500.
Proof.
  intros w.
  assert (Hreq : require_db w
                 = (Raise (HTTPException 500 (lit "Database not configured")), w))
    by (apply require_db_none; reflexivity).
  unfold create_profile, get_profiles, create_metric, list_metrics, predict,
    create_report, list_reports, bind, not_configured.
  rewrite Hreq. repeat split; reflexivity.
Qed.

(** ** Limits of the list routes *)

(** C5: on a configured database, [GET /api/metrics] and
    [GET /api/reports] with [limit=0] return the empty list, and with the
    default limit they return at most 50 records. *)
Theorem list_limits
  (py_str : value -> pystr) (d : database) (env : gmap pystr pystr) :
  let w := {| db := Some d; environ := env |} in
  list_metrics py_str (Some 0) w = (Return [], w)
  /\ list_reports py_str (Some 0) w = (Return [], w)
  /\ DEFAULT_LIMIT = Some 50
  /\ (exists items, list_metrics py_str DEFAULT_LIMIT w = (Return items, w)
                    /\ (length items <= 50)%nat)
  /\ (exists items, list_reports py_str DEFAULT_LIMIT w = (Return items, w)
                    /\ (length items <= 50)%nat).
Proof.
  intros w.
  rewrite !(list_metrics_some py_str w d) by reflexivity.
  rewrite !(list_reports_some py_str w d) by reflexivity.
  repeat split; try reflexivity.
  - eexists. split; [reflexivity|].
    rewrite length_fmap. apply (cap_length _ 50). reflexivity.
  - eexists. split; [reflexivity|].
    rewrite length_fmap. apply (cap_length _ 50). reflexivity.
Qed.

(** ** The diagnostic route *)

(** C6: [test_database] returns a diagnostic record in every state of the
    storage.  Its [database] field is one of the status strings; a failure
    of a probe shows as a prefix followed by the first 50 characters of the
    exception text.  Its [collections] field holds the first ten names the
    driver listed, and none when the listing was not reached or failed. *)
Theorem test_database_never_raises (w : world) :
  exists r,
    test_database w = Return r
    /\ (length (collection_names r) <= 10)%nat
    /\ database_status r = expected_status w
    /\ match probe_failure w with
       | Some e =>
           exists prefix : pystr,
             database_status r = prefix ++ take 50 (exn_str e)
             /\ (length (take 50 (exn_str e)) <= 50)%nat
       | None => True
       end.
Proof.
  destruct w as [[d|] env]; cycle 1.
  { eexists. repeat split; try reflexivity. cbn; lia. }
  destruct d as [nm lst st].
  unfold test_database, probe_database, expected_status, probe_failure,
    try_except, bind, lift, hasattr_name, getattr_name; cbn.
  destruct nm as [|v|e]; cbn; destruct lst as [l|e']; cbn.
  all: eexists; split; [reflexivity|];
    split; [cbn; try rewrite length_take; lia|]; split; [reflexivity|].
  all: try exact I.
  1-2: exists (WARNING_SIGN ++ lit "  Connected but Error: ").
  3-4: exists (CROSS_MARK ++ lit " Error: ").
  all: split; [reflexivity | rewrite length_take; lia].
Qed.

(** ** Records of the list routes *)

(** C7: every record returned by [GET /api/profile], [GET /api/metrics]
    and [GET /api/reports] stands for the stored record at the same
    position, and when that record carries an ["_id"], whatever its type,
    the returned record carries [str] of it, a string. *)
Theorem listed_id_is_string
  (py_str : value -> pystr) (w w' : world) (limit : option Z)
  (items : list document) (k : nat) (r : document) :
  get_profiles py_str w = (Return items, w')
  \/ list_metrics py_str limit w = (Return items, w')
  \/ list_reports py_str limit w = (Return items, w') ->
  items !! k = Some r ->
  exists (d : database) (name : pystr) (i : document),
    db w = Some d
    /\ records_of (db_store d) name !! k = Some i
    /\ forall v : value, i !! lit "_id" = Some v ->
                         r !! lit "_id" = Some (VStr (py_str v)).
Proof.
  intros H Hk.
  destruct (listed_record py_str w w' limit items k r H Hk)
    as (d & name & i & Hd & Hi & Hid & _).
  exists d, name, i. repeat split; try assumption.
  intros v Hv. rewrite Hid, Hv. reflexivity.
Qed.

(** C9: every record returned by the three list routes has an ["_id"]
    key; when the stored record has none, the key is added with the value
    [None]. *)
Theorem listed_id_key_always_present
  (py_str : value -> pystr) (w w' : world) (limit : option Z)
  (items : list document) (k : nat) (r : document) :
  get_profiles py_str w = (Return items, w')
  \/ list_metrics py_str limit w = (Return items, w')
  \/ list_reports py_str limit w = (Return items, w') ->
  items !! k = Some r ->
  is_Some (r !! lit "_id")
  /\ exists (d : database) (name : pystr) (i : document),
       db w = Some d
       /\ records_of (db_store d) name !! k = Some i
       /\ (i !! lit "_id" = None -> r !! lit "_id" = Some VNone).
Proof.
  intros H Hk.
  destruct (listed_record py_str w w' limit items k r H Hk)
    as (d & name & i & Hd & Hi & Hid & _).
  split.
  - rewrite Hid. destruct (i !! lit "_id"); eauto.
  - exists d, name, i. repeat split; try assumption.
    intros Hn. rewrite Hid, Hn. reflexivity.
Qed.

(** C10: in a record returned by [GET /api/metrics] the ["period"] of the
    stored record is replaced by its ISO string exactly when it is a date or
    a datetime; any other value is returned as stored, and a record without
    the key gets none. *)
Theorem listed_period_format
  (py_str : value -> pystr) (w w' : world) (limit : option Z)
  (items : list document) (k : nat) (r : document) :
  list_metrics py_str limit w = (Return items, w') ->
  items !! k = Some r ->
  exists (d : database) (i : document),
    db w = Some d
    /\ records_of (db_store d) (lit "metric") !! k = Some i
    /\ r !! lit "period"
       = match i !! lit "period" with
         | Some (VDate x) => Some (VStr (date_isoformat x))
         | Some (VDatetime x) => Some (VStr (datetime_isoformat x))
         | other => other
         end.
Proof.
  intros H Hk.
  destruct (db w) as [d|] eqn:Hd; cycle 1.
  { unfold list_metrics, bind in H. rewrite (require_db_none w Hd) in H.
    discriminate. }
  rewrite (list_metrics_some py_str w d limit Hd) in H.
  injection H as <- _.
  rewrite list_lookup_fmap in Hk.
  destruct (cap limit (records_of (db_store d) (lit "metric")) !! k) as [i|] eqn:Hi;
    [|discriminate].
  injection Hk as <-.
  exists d, i. split; [reflexivity|]. split; [exact (cap_lookup _ _ _ _ Hi)|].
  apply format_period_lookup.
Qed.

Lemma listed_id_is_string_witness :
  exists (d : database) (name : pystr) (i : document),
    db sample_world = Some d
    /\ records_of (db_store d) name !! 0%nat = Some i
    /\ forall v : value, i !! lit "_id" = Some v ->
                         sample_listed !! lit "_id" = Some (VStr (sample_str v)).
Proof.
  apply (listed_id_is_string sample_str sample_world sample_world (Some 50)
           [sample_listed] 0 sample_listed).
  - right; left. reflexivity.
  - reflexivity.
Defined.

Lemma listed_id_key_always_present_witness :
  is_Some (sample_listed !! lit "_id")
  /\ exists (d : database) (name : pystr) (i : document),
       db sample_world = Some d
       /\ records_of (db_store d) name !! 0%nat = Some i
       /\ (i !! lit "_id" = None -> sample_listed !! lit "_id" = Some VNone).
Proof.
  apply (listed_id_key_always_present sample_str sample_world sample_world
           (Some 50) [sample_listed] 0 sample_listed).
  - right; left. reflexivity.
  - reflexivity.
Defined.

Lemma listed_period_format_witness :
  exists (d : database) (i : document),
    db sample_world = Some d
    /\ records_of (db_store d) (lit "metric") !! 0%nat = Some i
    /\ sample_listed !! lit "period"
       = match i !! lit "period" with
         | Some (VDate x) => Some (VStr (date_isoformat x))
         | Some (VDatetime x) => Some (VStr (datetime_isoformat x))
         | other => other
         end.
Proof.
  apply (listed_period_format sample_str sample_world sample_world (Some 50)
           [sample_listed] 0 sample_listed).
  - reflexivity.
  - reflexivity.
Defined.

(** ** Validation of the numeric fields *)

(** C1, on the code: a body with [sales = -1.0] is refused by the schema
    [Metric] of [schemas.py], which declares [ge=0], but the request model
    [MetricIn] of [main.py] accepts it, and [POST /api/metrics] answers 200
    and stores the record; [POST /api/predict] does the same. *)
Theorem negative_sales_reaches_storage (py_str : value -> pystr) :
  let w0 := {| db := Some sample_database; environ := ∅ |} in
  let minus_one := S754_finite true 4503599627370496 (-52) in
  negative_sales_body !! lit "sales" = Some (VFloat minus_one)
  /\ fge minus_one f0_0 = false
  /\ validate_Metric negative_sales_body = None
  /\ validate_Prediction negative_sales_body = None
  /\ (exists (answer : document) (w1 : world) (d1 : database) (stored : document),
        post_api_metrics py_str negative_sales_body w0 = (Return answer, w1)
        /\ status_of (fst (post_api_metrics py_str negative_sales_body w0)) = 200
        /\ db w1 = Some d1
        /\ records_of (db_store d1) (lit "metric") = [sample_metric; stored]
        /\ stored !! lit "sales" = Some (VFloat minus_one))
  /\ (exists (answer : document) (w1 : world) (d1 : database) (stored : document),
        post_api_predict py_str negative_sales_body w0 = (Return answer, w1)
        /\ status_of (fst (post_api_predict py_str negative_sales_body w0)) = 200
        /\ db w1 = Some d1
        /\ records_of (db_store d1) (lit "prediction") = [stored]
        /\ stored !! lit "sales" = Some (VFloat minus_one)).
Proof.
  intros w0 minus_one.
  split; [reflexivity|]. split; [reflexivity|].
  split; [reflexivity|]. split; [reflexivity|].
  split.
  - unfold post_api_metrics, validated.
    change (validate_MetricIn negative_sales_body)
      with (Some {| mi_period := {| year := 2024; month := 3; day := 1 |};
                    mi_sales := minus_one; mi_orders := 0;
                    mi_marketing_spend := S754_zero false |}).
    cbv beta iota.
    rewrite (create_metric_some py_str w0 sample_database) by reflexivity.
    eexists _, _, _, _. split; [reflexivity|]. split; [reflexivity|].
    split; [reflexivity|]. cbn [db_store with_store].
    rewrite records_of_inserted. split; reflexivity.
  - unfold post_api_predict, validated.
    change (validate_PredictIn negative_sales_body)
      with (Some {| pi_period := {| year := 2024; month := 3; day := 1 |};
                    pi_sales := minus_one; pi_orders := 0;
                    pi_marketing_spend := S754_zero false |}).
    cbv beta iota.
    rewrite (predict_some py_str w0 sample_database _ (S754_zero false) 0)
      by reflexivity.
    eexists _, _, _, _. split; [reflexivity|]. split; [reflexivity|].
    split; [reflexivity|]. cbn [db_store with_store].
    rewrite records_of_inserted. split; reflexivity.
Qed.

(** ** The prediction function *)

Lemma max0_not_negative (x : float) : fge (max0 x) f0_0 = true.
Proof.
  unfold max0, fge, fgt, f0_0, SFleb, SFltb.
  destruct x as [s|s| |s m e]; try reflexivity; destruct s; reflexivity.
Qed.

Lemma clamp_int (n : Z) : (if 0 <? n then n else 0) = Z.max 0 n.
Proof. destruct (Z.ltb_spec 0 n); lia. Qed.

(** Truncation and floor agree once clamped at zero. *)
Lemma to_int_floor (x : float) :
  is_finite x = true ->
  exists a b : Z, to_int x = Return a /\ floor x = Return b
                  /\ Z.max 0 a = Z.max 0 b.
Proof.
  destruct x as [s|s| |s m e]; try discriminate; intros _.
  - exists 0, 0. repeat split.
  - cbn [to_int floor]. do 2 eexists. split; [reflexivity|]. split; [reflexivity|].
    destruct e as [|p|p]; destruct s; try reflexivity.
    + rewrite <- Z.mul_opp_l. reflexivity.
    + assert (H2 : 0 < 2 ^ Z.pos p) by (apply Z.pow_pos_nonneg; lia).
      assert (Ha : 0 <= Z.pos m / 2 ^ Z.pos p) by (apply Z.div_pos; lia).
      assert (Hb : Z.neg m / 2 ^ Z.pos p < 0) by (apply Z.div_lt_upper_bound; lia).
      lia.
Qed.

Lemma baseline_predict_raises (sales : float) (orders : Z) (marketing_spend : float) :
  orders_value_finite orders marketing_spend = false ->
  exists e : exn, baseline_predict sales orders marketing_spend = Raise e.
Proof.
  unfold orders_value_finite, baseline_predict.
  destruct (of_int orders) as [f|e]; cbn; [|eauto].
  destruct (fadd (fmul f f1_03) (fmul marketing_spend f0_02)) as [s|s| |s m e];
    cbn; try discriminate; eauto.
Qed.

(** C3: whatever the inputs, negative ones included, a call that returns
    gives [predicted_sales >= 0.0] and [predicted_orders >= 0]; and a call
    raises only when [orders * 1.03 + marketing_spend * 0.02] is not a
    finite float. *)
Theorem predictions_not_negative
  (sales : float) (orders : Z) (marketing_spend : float) :
  match baseline_predict sales orders marketing_spend with
  | Return (predicted_sales, predicted_orders) =>
      fge predicted_sales f0_0 = true /\ 0 <= predicted_orders
  | Raise _ => orders_value_finite orders marketing_spend = false
  end.
Proof.
  unfold baseline_predict, orders_value_finite.
  destruct (of_int orders) as [f|e]; cbn; [|reflexivity].
  destruct (fadd (fmul f f1_03) (fmul marketing_spend f0_02)) as [s|s| |s m e];
    cbn; try reflexivity.
  - split; [apply max0_not_negative | lia].
  - split; [apply max0_not_negative |].
    rewrite clamp_int. lia.
Qed.

(** C2 as stated fails: [orders = 2^1024] is a finite number, but the
    product [orders * 1.03] raises [OverflowError] and nothing is
    returned. *)
Lemma huge_orders_raise :
  baseline_predict f0_0 (2 ^ 1024) f0_0
  = Raise (OverflowError (lit "int too large to convert to float"))
  /\ ~ exists r : float * Z, baseline_predict f0_0 (2 ^ 1024) f0_0 = Return r.
Proof.
  assert (H : baseline_predict f0_0 (2 ^ 1024) f0_0
              = Raise (OverflowError (lit "int too large to convert to float")))
    by (vm_compute; reflexivity).
  split; [exact H|]. intros [r Hr]. rewrite H in Hr. discriminate.
Qed.

(** C2, amended: whenever the float [orders * 1.03 + marketing_spend * 0.02]
    is finite, the function returns
    [max(0.0, sales * 1.05 + marketing_spend * 0.5)] and
    [max(0, floor(orders * 1.03 + marketing_spend * 0.02))]. *)
Theorem baseline_predict_formulas
  (sales : float) (orders : Z) (marketing_spend : float) :
  orders_value_finite orders marketing_spend = true ->
  exists n : Z,
    spec_predicted_orders orders marketing_spend = Return n
    /\ baseline_predict sales orders marketing_spend
       = Return (spec_predicted_sales sales marketing_spend, n).
Proof.
  unfold orders_value_finite, baseline_predict, spec_predicted_orders,
    spec_predicted_sales.
  destruct (of_int orders) as [f|e]; cbn; [|discriminate].
  intros Hfin. destruct (to_int_floor _ Hfin) as (a & b & Ha & Hb & Hab).
  rewrite Ha, Hb. cbn. exists (Z.max 0 b). split; [reflexivity|].
  rewrite clamp_int, Hab. reflexivity.
Qed.

Lemma baseline_predict_formulas_witness :
  exists n : Z,
    spec_predicted_orders 50 (S754_finite false 7036874417766400 (-46)) = Return n
    /\ baseline_predict (S754_finite false 8796093022208000 (-43)) 50
                        (S754_finite false 7036874417766400 (-46))
       = Return (spec_predicted_sales (S754_finite false 8796093022208000 (-43))
                                      (S754_finite false 7036874417766400 (-46)), n).
Proof.
  apply (baseline_predict_formulas (S754_finite false 8796093022208000 (-43)) 50
           (S754_finite false 7036874417766400 (-46))).
  vm_compute. reflexivity.
Defined.

(** ** Rounding: the operations of [SpecFloat] round the exact result
    to the nearest float, ties to even *)

Lemma rne_div_bounds (a n : Z) :
  0 <= n -> a / 2 ^ n <= rne_div a n <= a / 2 ^ n + 1.
Proof.
  intros Hn. unfold rne_div.
  destruct (2 * (a mod 2 ^ n) ?= 2 ^ n); [destruct (Z.even _)| |]; lia.
Qed.

Lemma rne_div_mono (a b n : Z) :
  0 <= n -> a <= b -> rne_div a n <= rne_div b n.
Proof.
  intros Hn Hab.
  assert (Hd : 0 < 2 ^ n) by (apply Z.pow_pos_nonneg; lia).
  pose proof (Z.div_le_mono a b (2 ^ n) Hd Hab) as Hq.
  pose proof (rne_div_bounds a n Hn) as Ha.
  pose proof (rne_div_bounds b n Hn) as Hb.
  destruct (Z.eq_dec (a / 2 ^ n) (b / 2 ^ n)) as [E|NE]; [|lia].
  pose proof (Z.div_mod a (2 ^ n) ltac:(lia)) as Da.
  pose proof (Z.div_mod b (2 ^ n) ltac:(lia)) as Db.
  assert (Hr : a mod 2 ^ n <= b mod 2 ^ n) by (rewrite E in Da; lia).
  unfold rne_div. rewrite E.
  destruct (Z.compare_spec (2 * (a mod 2 ^ n)) (2 ^ n));
    destruct (Z.compare_spec (2 * (b mod 2 ^ n)) (2 ^ n));
    destruct (Z.even (b / 2 ^ n)); lia.
Qed.

Lemma rne_div_exact (g n : Z) : 0 <= n -> rne_div (g * 2 ^ n) n = g.
Proof.
  intros Hn.
  assert (Hd : 0 < 2 ^ n) by (apply Z.pow_pos_nonneg; lia).
  unfold rne_div. rewrite Z.mod_mul, Z.div_mul by lia.
  destruct (Z.compare_spec (2 * 0) (2 ^ n)); lia.
Qed.

Lemma rne_div_nonneg (a n : Z) : 0 <= n -> 0 <= a -> 0 <= rne_div a n.
Proof.
  intros Hn Ha. pose proof (rne_div_bounds a n Hn).
  assert (0 <= a / 2 ^ n) by (apply Z.div_pos; [lia | apply Z.pow_pos_nonneg; lia]).
  lia.
Qed.

Lemma round_units_nonneg (p v : Z) : 0 <= p -> 0 <= v -> 0 <= round_units p v.
Proof.
  intros Hp Hv. unfold round_units.
  apply Z.mul_nonneg_nonneg.
  - apply rne_div_nonneg; lia.
  - apply Z.pow_nonneg; lia.
Qed.

(** A number below a grid point rounds below it. *)
Lemma round_units_le_pow (p v k : Z) :
  0 <= p -> 0 <= v -> v <= 2 ^ k ->
  Z.max (Z.log2 v - 52) p <= k ->
  round_units p v <= 2 ^ (k - p).
Proof.
  intros Hp Hv Hvk Hk. unfold round_units.
  set (e := Z.max (Z.log2 v - 52) p) in *.
  assert (He : 0 <= e) by lia.
  assert (H1 : rne_div v e <= 2 ^ (k - e)).
  { rewrite <- (rne_div_exact (2 ^ (k - e)) e He).
    apply rne_div_mono; [lia|].
    rewrite <- Z.pow_add_r by lia. replace (k - e + e) with k by lia. exact Hvk. }
  replace (k - p) with ((k - e) + (e - p)) by lia.
  rewrite Z.pow_add_r by lia.
  apply Z.mul_le_mono_nonneg_r; [apply Z.pow_nonneg; lia | exact H1].
Qed.

(** A number above a grid point rounds above it. *)
Lemma round_units_ge_pow (p v k : Z) :
  0 <= p -> 2 ^ k <= v ->
  Z.max (Z.log2 v - 52) p <= k ->
  2 ^ (k - p) <= round_units p v.
Proof.
  intros Hp Hvk Hk. unfold round_units.
  set (e := Z.max (Z.log2 v - 52) p) in *.
  assert (He : 0 <= e) by lia.
  assert (H1 : 2 ^ (k - e) <= rne_div v e).
  { rewrite <- (rne_div_exact (2 ^ (k - e)) e He) at 1.
    apply rne_div_mono; [lia|].
    rewrite <- Z.pow_add_r by lia. replace (k - e + e) with k by lia. exact Hvk. }
  replace (k - p) with ((k - e) + (e - p)) by lia.
  rewrite Z.pow_add_r by lia.
  apply Z.mul_le_mono_nonneg_r; [apply Z.pow_nonneg; lia | exact H1].
Qed.

Lemma round_units_mono (p v v' : Z) :
  0 <= p -> 0 <= v -> v <= v' -> round_units p v <= round_units p v'.
Proof.
  intros Hp Hv Hvv.
  destruct (Z.eq_dec v 0) as [->|Hv0].
  { replace (round_units p 0) with 0; [apply round_units_nonneg; lia|].
    unfold round_units, rne_div. rewrite Z.mod_0_l, Z.div_0_l.
    - destruct (Z.compare_spec (2 * 0) (2 ^ Z.max (Z.log2 0 - 52) p));
        try reflexivity.
      assert (0 < 2 ^ Z.max (Z.log2 0 - 52) p) by (apply Z.pow_pos_nonneg; lia).
      lia.
    - apply Z.pow_nonzero; lia.
    - apply Z.pow_nonzero; lia. }
  assert (Hl : Z.log2 v <= Z.log2 v') by (apply Z.log2_le_mono; lia).
  destruct (Z.eq_dec (Z.max (Z.log2 v - 52) p) (Z.max (Z.log2 v' - 52) p))
    as [E|NE].
  - unfold round_units. rewrite E.
    apply Z.mul_le_mono_nonneg_r; [apply Z.pow_nonneg; lia|].
    apply rne_div_mono; lia.
  - pose proof (Z.log2_spec v ltac:(lia)) as [_ Hv2].
    pose proof (Z.log2_spec v' ltac:(lia)) as [Hv1 _].
    pose proof (Z.log2_nonneg v). pose proof (Z.log2_nonneg v').
    set (k := Z.max (Z.succ (Z.log2 v)) (Z.max (Z.log2 v - 52) p)).
    assert (Hk : k <= Z.log2 v') by lia.
    transitivity (2 ^ (k - p)).
    + apply round_units_le_pow; try lia.
      transitivity (2 ^ Z.succ (Z.log2 v)); [lia|].
      apply Z.pow_le_mono_r; lia.
    + transitivity (2 ^ (Z.log2 v' - p)).
      * apply Z.pow_le_mono_r; lia.
      * apply round_units_ge_pow; lia.
Qed.

Lemma sround_mono (p v v' : Z) :
  0 <= p -> v <= v' -> sround p v <= sround p v'.
Proof.
  intros Hp Hvv. unfold sround.
  destruct (Z.ltb_spec v 0); destruct (Z.ltb_spec v' 0).
  - apply Z.opp_le_mono. rewrite !Z.opp_involutive.
    apply round_units_mono; lia.
  - pose proof (round_units_nonneg p (- v) Hp ltac:(lia)).
    pose proof (round_units_nonneg p v' Hp ltac:(lia)). lia.
  - lia.
  - apply round_units_mono; lia.
Qed.

Lemma digits2_pos_size (m : positive) : digits2_pos m = Pos.size m.
Proof. induction m; cbn; congruence. Qed.

Lemma digits2_log2 (m : positive) : Z.pos (digits2_pos m) = Z.log2 (Z.pos m) + 1.
Proof.
  rewrite digits2_pos_size. destruct m; cbn; try reflexivity; lia.
Qed.

Lemma fexp_grid (m : positive) (e : Z) :
  fexp 53 1024 (Zdigits2 (Z.pos m) + e) = grid_exponent m e.
Proof.
  unfold fexp, emin, grid_exponent. cbn [Zdigits2]. rewrite digits2_log2. lia.
Qed.

Lemma iter_pos_iter {A : Type} (f : A -> A) (p : positive) (x : A) :
  SpecFloat.iter_pos f p x = Pos.iter f x p.
Proof.
  revert x. induction p as [p IH|p IH|]; intros x; cbn.
  - rewrite !IH. rewrite <- !Pos.iter_swap. reflexivity.
  - rewrite !IH. reflexivity.
  - reflexivity.
Qed.

Lemma shr_1_nonneg (q : Z) (r s : bool) :
  0 <= q ->
  shr_1 {| shr_m := q; shr_r := r; shr_s := s |}
  = {| shr_m := q / 2; shr_r := Z.odd q; shr_s := r || s |}.
Proof.
  intros Hq. destruct q as [|p|p]; [reflexivity| |lia].
  destruct p as [p|p|]; cbn [shr_1 Z.odd].
  - replace (Z.pos p~1 / 2) with (Z.pos p); [reflexivity|].
    rewrite Pos2Z.inj_xI. apply Z.div_unique with (r := 1); lia.
  - replace (Z.pos p~0 / 2) with (Z.pos p); [reflexivity|].
    rewrite Pos2Z.inj_xO. apply Z.div_unique with (r := 0); lia.
  - reflexivity.
Qed.

Lemma pow2_pred (n : Z) : 0 < n -> 2 ^ n = 2 ^ (n - 1) * 2.
Proof.
  intros Hn. transitivity (2 ^ Z.succ (n - 1)); [f_equal; lia|].
  rewrite Z.pow_succ_r by lia. lia.
Qed.

(** The state of the shifter after [p] steps. *)
Lemma shr_iter (m : Z) (p : positive) :
  0 <= m ->
  Pos.iter shr_1 {| shr_m := m; shr_r := false; shr_s := false |} p
  = {| shr_m := m / 2 ^ Z.pos p;
       shr_r := Z.odd (m / 2 ^ (Z.pos p - 1));
       shr_s := negb (m mod 2 ^ (Z.pos p - 1) =? 0) |}.
Proof.
  intros Hm. induction p as [|p IH] using Pos.peano_ind.
  - cbn [Pos.iter]. rewrite shr_1_nonneg by lia.
    change (Z.pos 1 - 1) with 0. rewrite Z.pow_0_r, Z.div_1_r, Z.mod_1_r.
    reflexivity.
  - rewrite Pos.iter_succ, IH.
    assert (Hq : 0 <= m / 2 ^ Z.pos p)
      by (apply Z.div_pos; [lia | apply Z.pow_pos_nonneg; lia]).
    rewrite shr_1_nonneg by exact Hq.
    rewrite Pos2Z.inj_succ.
    replace (Z.succ (Z.pos p) - 1) with (Z.pos p) by lia.
    f_equal.
    + rewrite Z.pow_succ_r by lia. rewrite Z.mul_comm.
      rewrite Z.div_div by (try apply Z.pow_pos_nonneg; lia). reflexivity.
    + assert (H2 : 0 < 2 ^ (Z.pos p - 1)) by (apply Z.pow_pos_nonneg; lia).
      rewrite (pow2_pred (Z.pos p)) by lia.
      rewrite Z.rem_mul_r by lia.
      pose proof (Z.mod_pos_bound m (2 ^ (Z.pos p - 1)) H2).
      pose proof (Z.mod_pos_bound (m / 2 ^ (Z.pos p - 1)) 2 ltac:(lia)).
      rewrite Zodd_mod.
      destruct (Z.eqb_spec ((m / 2 ^ (Z.pos p - 1)) mod 2) 1) as [E|E];
        destruct (Z.eqb_spec (m mod 2 ^ (Z.pos p - 1)) 0) as [F|F];
        cbn; symmetry.
      * apply negb_true_iff, Z.eqb_neq. nia.
      * apply negb_true_iff, Z.eqb_neq. nia.
      * apply negb_false_iff, Z.eqb_eq.
        replace ((m / 2 ^ (Z.pos p - 1)) mod 2) with 0 by lia. lia.
      * apply negb_true_iff, Z.eqb_neq. nia.
Qed.

(** Shifting right by [p] bits and rounding is [rne_div]. *)
Lemma shr_round (m : Z) (p : positive) (e : Z) :
  0 <= m ->
  exists mrs : shr_record,
    shr (shr_record_of_loc m loc_Exact) e (Z.pos p) = (mrs, e + Z.pos p)
    /\ round_nearest_even (shr_m mrs) (loc_of_shr_record mrs)
       = rne_div m (Z.pos p).
Proof.
  intros Hm. eexists. split.
  { cbn [shr shr_record_of_loc]. rewrite iter_pos_iter, shr_iter by exact Hm.
    reflexivity. }
  cbn [shr_m loc_of_shr_record].
  assert (H2 : 0 < 2 ^ (Z.pos p - 1)) by (apply Z.pow_pos_nonneg; lia).
  assert (Hp : 2 ^ Z.pos p = 2 ^ (Z.pos p - 1) * 2) by (apply pow2_pred; lia).
  unfold rne_div.
  assert (Hmod : m mod 2 ^ Z.pos p
                 = m mod 2 ^ (Z.pos p - 1)
                   + 2 ^ (Z.pos p - 1) * ((m / 2 ^ (Z.pos p - 1)) mod 2)).
  { rewrite Hp. apply Z.rem_mul_r; lia. }
  rewrite Hmod.
  pose proof (Z.mod_pos_bound m (2 ^ (Z.pos p - 1)) H2).
  pose proof (Z.mod_pos_bound (m / 2 ^ (Z.pos p - 1)) 2 ltac:(lia)).
  rewrite Zodd_mod.
  destruct (Z.eqb_spec ((m / 2 ^ (Z.pos p - 1)) mod 2) 1) as [E|E];
    destruct (Z.eqb_spec (m mod 2 ^ (Z.pos p - 1)) 0) as [F|F];
    cbn [negb round_nearest_even].
  - rewrite E, F.
    destruct (Z.compare_spec (2 * (0 + 2 ^ (Z.pos p - 1) * 1)) (2 ^ Z.pos p)); first [reflexivity | lia].
  - rewrite E.
    destruct (Z.compare_spec
                (2 * (m mod 2 ^ (Z.pos p - 1) + 2 ^ (Z.pos p - 1) * 1))
                (2 ^ Z.pos p)); first [reflexivity | lia].
  - replace ((m / 2 ^ (Z.pos p - 1)) mod 2) with 0 by lia. rewrite F.
    destruct (Z.compare_spec (2 * (0 + 2 ^ (Z.pos p - 1) * 0)) (2 ^ Z.pos p)); first [reflexivity | lia].
  - replace ((m / 2 ^ (Z.pos p - 1)) mod 2) with 0 by lia.
    destruct (Z.compare_spec
                (2 * (m mod 2 ^ (Z.pos p - 1) + 2 ^ (Z.pos p - 1) * 0))
                (2 ^ Z.pos p)); first [reflexivity | lia].
Qed.

Lemma shr_noop (mrs : shr_record) (e n : Z) : n <= 0 -> shr mrs e n = (mrs, e).
Proof. intros Hn. destruct n; try reflexivity. lia. Qed.

Lemma log2_bounds (m : positive) :
  2 ^ Z.log2 (Z.pos m) <= Z.pos m < 2 ^ (Z.log2 (Z.pos m) + 1).
Proof.
  pose proof (Z.log2_spec (Z.pos m) ltac:(lia)) as H.
  rewrite <- Z.add_1_r in H. exact H.
Qed.

Lemma grid_exponent_ge (m : positive) (e : Z) : -1074 <= grid_exponent m e.
Proof. unfold grid_exponent. lia. Qed.

(** No bit is shifted out: the mantissa is kept as it is. *)
Lemma round_aux_noshift (s : bool) (m : positive) (e : Z) :
  grid_exponent m e <= e ->
  binary_round_aux 53 1024 s (Z.pos m) e loc_Exact
  = if e <=? 971 then S754_finite s m e else S754_infinity s.
Proof.
  intros H. unfold binary_round_aux, shr_fexp.
  rewrite fexp_grid, shr_noop by lia.
  cbn [shr_record_of_loc shr_m loc_of_shr_record round_nearest_even].
  rewrite fexp_grid, shr_noop by lia.
  reflexivity.
Qed.

(** The rounded mantissa has at most 53 bits, or is [2^53]. *)
Lemma rounded_mantissa_bounds (m : positive) (e : Z) :
  e < grid_exponent m e ->
  0 <= rne_div (Z.pos m) (grid_exponent m e - e) <= 2 ^ 53
  /\ (grid_exponent m e = -1074
      \/ 2 ^ 52 <= rne_div (Z.pos m) (grid_exponent m e - e)).
Proof.
  intros H. set (n := grid_exponent m e - e).
  assert (Hn : 0 < n) by lia.
  pose proof (log2_bounds m) as [Hlo Hhi].
  pose proof (Z.log2_nonneg (Z.pos m)) as Hl.
  assert (H2n : 0 < 2 ^ n) by (apply Z.pow_pos_nonneg; lia).
  pose proof (rne_div_bounds (Z.pos m) n ltac:(lia)) as Hb.
  assert (Hq0 : 0 <= Z.pos m / 2 ^ n) by (apply Z.div_pos; lia).
  assert (Hq1 : Z.pos m / 2 ^ n < 2 ^ 53).
  { apply Z.div_lt_upper_bound; [lia|].
    rewrite <- Z.pow_add_r by lia.
    eapply Z.lt_le_trans; [exact Hhi|].
    apply Z.pow_le_mono_r; [lia|]. unfold n, grid_exponent. lia. }
  split; [lia|].
  unfold grid_exponent in *.
  destruct (Z.max_spec (Z.log2 (Z.pos m) + e - 52) (-1074)) as [[_ E]|[_ E]];
    [left; exact E|right].
  assert (Hq2 : 2 ^ 52 <= Z.pos m / 2 ^ n).
  { apply Z.div_le_lower_bound; [lia|].
    rewrite Z.mul_comm, <- Z.pow_add_r by lia.
    replace (52 + n) with (Z.log2 (Z.pos m)) by (unfold n; lia). exact Hlo. }
  lia.
Qed.

(** The second normalisation of [binary_round_aux]: only a mantissa that
    was rounded up to [2^53] is shifted once more. *)
Lemma second_shift (s : bool) (q e : Z) :
  0 <= q <= 2 ^ 53 -> -1074 <= e ->
  (let '(mrs, e') := shr_fexp 53 1024 q e loc_Exact in
   match shr_m mrs with
   | 0 => S754_zero s
   | Z.pos p => if e' <=? 1024 - 53 then S754_finite s p e' else S754_infinity s
   | Z.neg _ => S754_nan
   end) = pack s q e.
Proof.
  intros Hq He. unfold pack, shr_fexp.
  destruct (Z.eqb_spec q (2 ^ 53)) as [->|Hne].
  - replace (fexp 53 1024 (Zdigits2 (2 ^ 53) + e) - e) with 1
      by (unfold fexp, emin; change (Zdigits2 (2 ^ 53)) with 54; lia).
    reflexivity.
  - destruct q as [|p|p]; [| |lia].
    + rewrite shr_noop by (unfold fexp, emin; cbn [Zdigits2]; lia). reflexivity.
    + rewrite fexp_grid.
      assert (Hl : Z.log2 (Z.pos p) < 53).
      { apply Z.log2_lt_pow2; lia. }
      rewrite shr_noop by (unfold grid_exponent; lia). reflexivity.
Qed.

(** Bits are shifted out: the mantissa is divided and rounded. *)
Lemma round_aux_shift (s : bool) (m : positive) (e : Z) :
  e < grid_exponent m e ->
  binary_round_aux 53 1024 s (Z.pos m) e loc_Exact
  = pack s (rne_div (Z.pos m) (grid_exponent m e - e)) (grid_exponent m e).
Proof.
  intros H.
  destruct (rounded_mantissa_bounds m e H) as [Hq _].
  pose proof (grid_exponent_ge m e) as HE.
  unfold binary_round_aux. unfold shr_fexp at 1. rewrite fexp_grid.
  destruct (grid_exponent m e - e) as [|p|p] eqn:Hn; try lia.
  destruct (shr_round (Z.pos m) p e ltac:(lia)) as (mrs & Hs & Hr).
  rewrite Hs, Hr.
  replace (e + Z.pos p) with (grid_exponent m e) by lia.
  apply second_shift; [exact Hq | exact HE].
Qed.

Lemma pow2_pos (n : Z) : 0 <= n -> 0 < 2 ^ n.
Proof. intros. apply Z.pow_pos_nonneg; lia. Qed.

Lemma mantissa_rank_lt (m e : Z) :
  0 <= m < 2 ^ 53 -> -1074 <= e <= 971 -> m * 2 ^ (e + 1074) < INF_RANK.
Proof.
  intros Hm He. unfold INF_RANK.
  replace 2098 with (53 + 2045) by lia. rewrite (Z.pow_add_r 2 53 2045) by lia.
  pose proof (pow2_pos (e + 1074) ltac:(lia)) as H1.
  assert (H2 : 2 ^ (e + 1074) <= 2 ^ 2045) by (apply Z.pow_le_mono_r; lia).
  nia.
Qed.

Lemma mantissa_rank_ge (m e : Z) :
  2 ^ 52 <= m -> 972 <= e -> INF_RANK <= m * 2 ^ (e + 1074).
Proof.
  intros Hm He. unfold INF_RANK.
  replace 2098 with (52 + 2046) by lia. rewrite (Z.pow_add_r 2 52 2046) by lia.
  pose proof (pow2_pos 2046 ltac:(lia)) as H1.
  assert (H2 : 2 ^ 2046 <= 2 ^ (e + 1074)) by (apply Z.pow_le_mono_r; lia).
  pose proof (pow2_pos 52 ltac:(lia)). nia.
Qed.

Lemma representable_finite (s : bool) (m : positive) (e : Z) :
  Z.pos m < 2 ^ 53 -> -1074 <= e <= 971 ->
  representable (S754_finite s m e) = true.
Proof.
  intros Hm He. cbn [representable].
  apply andb_true_intro; split; [apply andb_true_intro; split|]; lia.
Qed.

Lemma representable_bounds (s : bool) (m : positive) (e : Z) :
  representable (S754_finite s m e) = true ->
  Z.pos m < 2 ^ 53 /\ -1074 <= e <= 971.
Proof.
  cbn [representable]. intros H.
  apply andb_prop in H as [H H3]. apply andb_prop in H as [H1 H2]. lia.
Qed.

(** The rank of a packed result. *)
Lemma rank_pack (s : bool) (q e : Z) :
  -1074 <= e -> 0 <= q <= 2 ^ 53 -> e = -1074 \/ 2 ^ 52 <= q ->
  rank (pack s q e) = Some (signed s (Z.min INF_RANK (q * 2 ^ (e + 1074))))
  /\ representable (pack s q e) = true.
Proof.
  intros He Hq Hn. unfold pack.
  destruct (Z.eqb_spec q (2 ^ 53)) as [->|Hne].
  - change (2 ^ 52) with (Z.pos (2 ^ 52)%positive) at 1 2.
    cbv iota beta.
    assert (Hv : 2 ^ 53 * 2 ^ (e + 1074) = Z.pos (2 ^ 52) * 2 ^ (e + 1 + 1074)).
    { replace (e + 1 + 1074) with (1 + (e + 1074)) by lia.
      rewrite (Z.pow_add_r 2 1 (e + 1074)) by lia.
      change (2 ^ 53) with (Z.pos (2 ^ 52) * 2 ^ 1). lia. }
    rewrite Hv.
    destruct (Z.leb_spec (e + 1) 971).
    + pose proof (mantissa_rank_lt (Z.pos (2 ^ 52)) (e + 1) ltac:(lia) ltac:(lia)).
      split; [cbn [rank]; rewrite Z.min_r by lia; reflexivity|].
      apply representable_finite; lia.
    + pose proof (mantissa_rank_ge (Z.pos (2 ^ 52)) (e + 1) ltac:(lia) ltac:(lia)).
      split; [cbn [rank]; rewrite Z.min_l by lia; destruct s; reflexivity|].
      reflexivity.
  - destruct q as [|p|p]; [| |lia].
    + split; [|reflexivity]. cbn [rank].
      rewrite Z.mul_0_l, Z.min_r by (unfold INF_RANK; pose proof (pow2_pos 2098); lia).
      destruct s; reflexivity.
    + destruct (Z.leb_spec e 971).
      * pose proof (mantissa_rank_lt (Z.pos p) e ltac:(lia) ltac:(lia)).
        split; [cbn [rank]; rewrite Z.min_r by lia; reflexivity|].
        apply representable_finite; lia.
      * pose proof (mantissa_rank_ge (Z.pos p) e ltac:(lia) ltac:(lia)).
        split; [cbn [rank]; rewrite Z.min_l by lia; destruct s; reflexivity|].
        reflexivity.
Qed.

Lemma rne_div_scale (a n j : Z) :
  0 <= n -> 0 <= j -> rne_div (a * 2 ^ j) (n + j) = rne_div a n.
Proof.
  intros Hn Hj. unfold rne_div.
  pose proof (pow2_pos n Hn). pose proof (pow2_pos j Hj).
  rewrite Z.pow_add_r by lia.
  rewrite Z.div_mul_cancel_r by lia.
  rewrite Z.mul_mod_distr_r by lia.
  replace (2 * (a mod 2 ^ n * 2 ^ j)) with (2 * (a mod 2 ^ n) * 2 ^ j) by lia.
  rewrite <- Zmult_compare_compat_r by lia. reflexivity.
Qed.

Lemma log2_scaled (m : positive) (j : Z) :
  0 <= j -> Z.log2 (Z.pos m * 2 ^ j) = Z.log2 (Z.pos m) + j.
Proof.
  intros Hj. rewrite Z.log2_mul_pow2 by lia. lia.
Qed.

(** The grid of [round_units] is the grid of the float format. *)
Lemma round_units_grid (m : positive) (e p : Z) :
  0 <= p -> -1074 - p <= e ->
  Z.max (Z.log2 (Z.pos m * 2 ^ (e + 1074 + p)) - 52) p
  = grid_exponent m e + 1074 + p.
Proof.
  intros Hp He. rewrite log2_scaled by lia. unfold grid_exponent. lia.
Qed.

Lemma round_units_shift (m : positive) (e p : Z) :
  0 <= p -> -1074 - p <= e -> e < grid_exponent m e ->
  round_units p (Z.pos m * 2 ^ (e + 1074 + p))
  = rne_div (Z.pos m) (grid_exponent m e - e) * 2 ^ (grid_exponent m e + 1074).
Proof.
  intros Hp He H. unfold round_units.
  rewrite round_units_grid by lia.
  replace (grid_exponent m e + 1074 + p)
    with ((grid_exponent m e - e) + (e + 1074 + p)) at 1 by lia.
  rewrite rne_div_scale by lia.
  f_equal. f_equal. lia.
Qed.

Lemma round_units_exact (m : positive) (e p : Z) :
  0 <= p -> -1074 - p <= e -> grid_exponent m e <= e ->
  round_units p (Z.pos m * 2 ^ (e + 1074 + p)) = Z.pos m * 2 ^ (e + 1074).
Proof.
  intros Hp He H. unfold round_units.
  rewrite round_units_grid by lia.
  pose proof (grid_exponent_ge m e).
  replace (Z.pos m * 2 ^ (e + 1074 + p))
    with (Z.pos m * 2 ^ (e - grid_exponent m e) * 2 ^ (grid_exponent m e + 1074 + p)).
  2:{ rewrite <- Z.mul_assoc, <- Z.pow_add_r by lia. f_equal. f_equal. lia. }
  rewrite rne_div_exact by lia.
  rewrite <- Z.mul_assoc, <- Z.pow_add_r by lia. f_equal. f_equal. lia.
Qed.

Lemma INF_RANK_pos : 0 < INF_RANK.
Proof. unfold INF_RANK. apply pow2_pos. lia. Qed.

Lemma round_units_0 (p : Z) : 0 <= p -> round_units p 0 = 0.
Proof.
  intros Hp. unfold round_units, rne_div.
  pose proof (pow2_pos (Z.max (Z.log2 0 - 52) p) ltac:(lia)).
  rewrite Z.mod_0_l, Z.div_0_l by lia.
  destruct (Z.compare_spec (2 * 0) (2 ^ Z.max (Z.log2 0 - 52) p)); lia.
Qed.

Lemma signed_clamp (s : bool) (p a : Z) :
  0 <= p -> 0 <= a ->
  signed s (Z.min INF_RANK (round_units p a)) = frnd p (signed s a).
Proof.
  intros Hp Ha. pose proof INF_RANK_pos.
  pose proof (round_units_nonneg p a Hp Ha).
  unfold frnd, sclamp, sround, signed. destruct s.
  - destruct (Z.eq_dec a 0) as [->|Hne].
    + change (- 0) with 0. change (0 <? 0) with false. cbv iota.
      rewrite round_units_0 by lia. lia.
    + destruct (Z.ltb_spec (- a) 0); [|lia].
      rewrite Z.opp_involutive. lia.
  - destruct (Z.ltb_spec a 0); lia.
Qed.

(** A mantissa that fits is its own rounding. *)
Lemma rank_exact (s : bool) (m m' : positive) (e e' p : Z) :
  0 <= p -> -1074 - p <= e ->
  grid_exponent m e <= e' <= e ->
  Z.pos m' * 2 ^ (e' + 1074) = Z.pos m * 2 ^ (e + 1074) ->
  (971 < e' -> e' = grid_exponent m e) ->
  let x := if e' <=? 971 then S754_finite s m' e' else S754_infinity s in
  rank x = Some (frnd p (signed s (Z.pos m * 2 ^ (e + 1074 + p))))
  /\ representable x = true.
Proof.
  intros Hp He Hg Hv Hc x.
  pose proof (grid_exponent_ge m e) as HE.
  pose proof (pow2_pos (e + 1074 + p) ltac:(lia)).
  rewrite <- signed_clamp by lia.
  rewrite round_units_exact by lia.
  pose proof (log2_bounds m) as [Hlo Hhi].
  pose proof (Z.log2_nonneg (Z.pos m)) as Hl.
  assert (Hm' : Z.pos m' < 2 ^ 53).
  { assert (Z.pos m' * 2 ^ (e' + 1074) < 2 ^ 53 * 2 ^ (e' + 1074)); [|nia].
    rewrite Hv, <- Z.pow_add_r by lia.
    eapply Z.lt_le_trans.
    - apply Z.mul_lt_mono_pos_r; [apply pow2_pos; lia | exact Hhi].
    - rewrite <- Z.pow_add_r by lia. apply Z.pow_le_mono_r; [lia|].
      unfold grid_exponent in Hg. lia. }
  subst x. destruct (Z.leb_spec e' 971) as [Hle|Hgt].
  - pose proof (mantissa_rank_lt (Z.pos m') e' ltac:(lia) ltac:(lia)).
    split; [cbn [rank]; rewrite <- Hv, Z.min_r by lia; reflexivity|].
    apply representable_finite; lia.
  - split; [|reflexivity].
    assert (INF_RANK <= Z.pos m * 2 ^ (e + 1074)).
    { specialize (Hc Hgt). unfold grid_exponent in Hc.
      unfold INF_RANK.
      transitivity (2 ^ Z.log2 (Z.pos m) * 2 ^ (e + 1074)).
      - rewrite <- Z.pow_add_r by lia. apply Z.pow_le_mono_r; lia.
      - apply Z.mul_le_mono_nonneg_r; [apply Z.pow_nonneg; lia | exact Hlo]. }
    cbn [rank]. rewrite Z.min_l by lia. destruct s; reflexivity.
Qed.

(** The value [binary_round_aux] rounds to. *)
Lemma round_aux_rank (s : bool) (m : positive) (e p : Z) :
  0 <= p -> -1074 - p <= e ->
  (grid_exponent m e <= e -> e <= 971) ->
  rank (binary_round_aux 53 1024 s (Z.pos m) e loc_Exact)
  = Some (frnd p (signed s (Z.pos m * 2 ^ (e + 1074 + p))))
  /\ representable (binary_round_aux 53 1024 s (Z.pos m) e loc_Exact) = true.
Proof.
  intros Hp He Hc.
  pose proof (grid_exponent_ge m e) as HE.
  destruct (Z.le_gt_cases (grid_exponent m e) e) as [Hn|Hs].
  - rewrite round_aux_noshift by exact Hn.
    apply (rank_exact s m m e e p); try lia.
  - rewrite round_aux_shift by lia.
    destruct (rounded_mantissa_bounds m e ltac:(lia)) as [Hq Hnorm].
    pose proof (pow2_pos (e + 1074 + p) ltac:(lia)).
    rewrite <- signed_clamp by lia.
    rewrite round_units_shift by lia.
    apply rank_pack; assumption.
Qed.

Lemma iter_xO (m d : positive) : Z.pos (Pos.iter xO m d) = Z.pos m * 2 ^ Z.pos d.
Proof.
  induction d as [|d IH] using Pos.peano_ind.
  - cbn [Pos.iter]. lia.
  - rewrite Pos.iter_succ, Pos2Z.inj_xO, IH, Pos2Z.inj_succ, Z.pow_succ_r by lia.
    lia.
Qed.

(** The value [binary_round] rounds to. *)
Lemma round_rank (s : bool) (m : positive) (e p : Z) :
  0 <= p -> -1074 - p <= e ->
  rank (binary_round 53 1024 s m e)
  = Some (frnd p (signed s (Z.pos m * 2 ^ (e + 1074 + p))))
  /\ representable (binary_round 53 1024 s m e) = true.
Proof.
  intros Hp He. unfold binary_round.
  change (Z.pos (digits2_pos m)) with (Zdigits2 (Z.pos m)). rewrite fexp_grid.
  pose proof (grid_exponent_ge m e) as HE.
  unfold shl_align.
  destruct (grid_exponent m e - e) as [|d|d] eqn:Hd.
  - assert (Hg : grid_exponent m e = e) by lia.
    rewrite round_aux_noshift by lia.
    apply (rank_exact s m m e e p); try lia.
  - apply round_aux_rank; lia.
  - assert (Hz : Z.pos (Pos.iter xO m d) = Z.pos m * 2 ^ (e - grid_exponent m e)).
    { rewrite iter_xO. f_equal. f_equal. lia. }
    assert (Hg : grid_exponent (Pos.iter xO m d) (grid_exponent m e)
                 = grid_exponent m e).
    { unfold grid_exponent at 1. rewrite Hz, log2_scaled by lia.
      unfold grid_exponent. lia. }
    rewrite round_aux_noshift by lia.
    apply (rank_exact s m (Pos.iter xO m d) e (grid_exponent m e) p); try lia.
    rewrite Hz, <- Z.mul_assoc, <- Z.pow_add_r by lia. f_equal. f_equal. lia.
Qed.

Lemma frnd_bounds (p v : Z) : - INF_RANK <= frnd p v <= INF_RANK.
Proof. pose proof INF_RANK_pos. unfold frnd, sclamp. lia. Qed.

Lemma frnd_mono (p v v' : Z) : 0 <= p -> v <= v' -> frnd p v <= frnd p v'.
Proof.
  intros Hp Hv. pose proof (sround_mono p v v' Hp Hv).
  unfold frnd, sclamp. lia.
Qed.

Lemma frnd_0 (p : Z) : 0 <= p -> frnd p 0 = 0.
Proof.
  intros Hp. pose proof INF_RANK_pos. unfold frnd, sclamp, sround.
  change (0 <? 0) with false. cbv iota. rewrite round_units_0 by lia. lia.
Qed.

Lemma rank_finite_bounds (s : bool) (m : positive) (e : Z) :
  representable (S754_finite s m e) = true ->
  Z.abs (signed s (Z.pos m * 2 ^ (e + 1074))) < INF_RANK.
Proof.
  intros H. apply representable_bounds in H as [Hm He].
  pose proof (mantissa_rank_lt (Z.pos m) e ltac:(lia) He).
  pose proof (pow2_pos (e + 1074) ltac:(lia)).
  unfold signed. destruct s; nia.
Qed.

(** A representable number rounds to itself. *)
Lemma frnd_representable (s : bool) (m : positive) (e : Z) :
  representable (S754_finite s m e) = true ->
  frnd 0 (signed s (Z.pos m * 2 ^ (e + 1074))) = signed s (Z.pos m * 2 ^ (e + 1074)).
Proof.
  intros H. apply representable_bounds in H as [Hm He].
  assert (Hl : Z.log2 (Z.pos m) < 53) by (apply Z.log2_lt_pow2; lia).
  destruct (rank_exact s m m e e 0) as [Hr _]; try lia.
  all: try (unfold grid_exponent; lia).
  destruct (Z.leb_spec e 971); [|lia].
  cbn [rank] in Hr. rewrite Z.add_0_r in Hr. injection Hr as Hr.
  symmetry. exact Hr.
Qed.

(** Multiplication by one of the coefficients. *)
Lemma fmul_rank (x : float) (mc : positive) (ec rx : Z) :
  representable x = true -> is_finite x = true -> rank x = Some rx ->
  ec <= 0 ->
  rank (fmul x (S754_finite false mc ec)) = Some (frnd (- ec) (rx * Z.pos mc))
  /\ representable (fmul x (S754_finite false mc ec)) = true.
Proof.
  intros Hrep Hfin Hrx Hec.
  destruct x as [s|s| |s m e]; try discriminate.
  - cbn in Hrx. injection Hrx as <-. cbn. rewrite frnd_0 by lia. split; reflexivity.
  - apply representable_bounds in Hrep as [Hm He].
    cbn [rank] in Hrx. injection Hrx as <-.
    unfold fmul, PyFloat.prec, PyFloat.emax. cbn [SFmul].
    rewrite xorb_false_r.
    destruct (round_aux_rank s (m * mc) (e + ec) (- ec)) as [Hr Hp]; try lia.
    split; [|exact Hp]. rewrite Hr. f_equal. f_equal.
    replace (e + ec + 1074 + - ec) with (e + 1074) by lia.
    rewrite Pos2Z.inj_mul. unfold signed. destruct s; lia.
Qed.

Lemma shl_align_fst (m : positive) (e e' : Z) :
  e' <= e -> Z.pos (fst (shl_align m e e')) = Z.pos m * 2 ^ (e - e').
Proof.
  intros H. unfold shl_align.
  destruct (e' - e) as [|d|d] eqn:Hd; cbn [fst]; try lia.
  - replace (e - e') with 0 by lia. lia.
  - rewrite iter_xO. f_equal. f_equal. lia.
Qed.

Lemma normalize_rank (n e : Z) :
  -1074 <= e ->
  rank (binary_normalize 53 1024 n e false) = Some (frnd 0 (n * 2 ^ (e + 1074)))
  /\ representable (binary_normalize 53 1024 n e false) = true.
Proof.
  intros He. destruct n as [|m|m]; cbn [binary_normalize].
  - rewrite Z.mul_0_l, frnd_0 by lia. split; reflexivity.
  - destruct (round_rank false m e 0) as [Hr Hp]; try lia.
    rewrite Z.add_0_r in Hr. split; assumption.
  - destruct (round_rank true m e 0) as [Hr Hp]; try lia.
    rewrite Z.add_0_r in Hr. split; [|assumption].
    rewrite Hr. f_equal. f_equal. unfold signed. lia.
Qed.

(** Addition. *)
Lemma fadd_rank (x y : float) (a b : Z) :
  representable x = true -> representable y = true ->
  rank x = Some a -> rank y = Some b ->
  rank (fadd x y) = eadd a b
  /\ (is_nan (fadd x y) = false -> representable (fadd x y) = true).
Proof.
  intros Hx Hy Ha Hb. pose proof INF_RANK_pos as HI.
  destruct x as [sx|sx| |sx mx ex]; try discriminate;
    destruct y as [sy|sy| |sy my ey]; try discriminate;
    cbn [rank] in Ha, Hb; injection Ha as <-; injection Hb as <-;
    try pose proof (rank_finite_bounds _ _ _ Hx) as Bx;
    try pose proof (rank_finite_bounds _ _ _ Hy) as By.
  - (* zero + zero *)
    unfold eadd.
    destruct (Z.eqb_spec (Z.abs 0) INF_RANK); [lia|].
    rewrite frnd_0 by lia.
    destruct sx, sy; split; reflexivity.
  - (* zero + infinity *)
    unfold eadd. destruct (Z.eqb_spec (Z.abs 0) INF_RANK); [lia|].
    destruct (Z.eqb_spec (Z.abs (signed sy INF_RANK)) INF_RANK);
      [|unfold signed in *; destruct sy; lia].
    split; reflexivity.
  - (* zero + finite *)
    unfold eadd. destruct (Z.eqb_spec (Z.abs 0) INF_RANK); [lia|].
    match goal with |- context [Z.abs ?r =? _] =>
      destruct (Z.eqb_spec (Z.abs r) INF_RANK); [lia|] end.
    rewrite Z.add_0_l, frnd_representable by exact Hy.
    split; [reflexivity | intros _; exact Hy].
  - (* infinity + zero *)
    unfold eadd.
    destruct (Z.eqb_spec (Z.abs (signed sx INF_RANK)) INF_RANK);
      [|unfold signed in *; destruct sx; lia].
    destruct (Z.eqb_spec 0 (- (signed sx INF_RANK)));
      [unfold signed in *; destruct sx; lia|].
    split; reflexivity.
  - (* infinity + infinity *)
    unfold eadd.
    destruct (Z.eqb_spec (Z.abs (signed sx INF_RANK)) INF_RANK);
      [|unfold signed in *; destruct sx; lia].
    destruct (Z.eqb_spec (signed sy INF_RANK) (- signed sx INF_RANK)) as [E|E];
      destruct sx, sy; unfold signed in E; try lia;
      (split; [reflexivity | cbn; intros; congruence]).
  - (* infinity + finite *)
    unfold eadd.
    destruct (Z.eqb_spec (Z.abs (signed sx INF_RANK)) INF_RANK);
      [|unfold signed in *; destruct sx; lia].
    match goal with |- context [?u =? - ?v] =>
      destruct (Z.eqb_spec u (- v)); [unfold signed in *; destruct sx; lia|] end.
    split; reflexivity.
  - (* finite + zero *)
    unfold eadd.
    match goal with |- context [Z.abs ?r =? _] =>
      destruct (Z.eqb_spec (Z.abs r) INF_RANK); [lia|] end.
    destruct (Z.eqb_spec (Z.abs 0) INF_RANK); [lia|].
    rewrite Z.add_0_r, frnd_representable by exact Hx.
    split; [reflexivity | intros _; exact Hx].
  - (* finite + infinity *)
    unfold eadd.
    match goal with |- context [Z.abs ?r =? _] =>
      destruct (Z.eqb_spec (Z.abs r) INF_RANK); [lia|] end.
    destruct (Z.eqb_spec (Z.abs (signed sy INF_RANK)) INF_RANK);
      [|unfold signed in *; destruct sy; lia].
    split; reflexivity.
  - (* finite + finite *)
    unfold eadd.
    match goal with |- context [Z.abs ?r =? _] =>
      destruct (Z.eqb_spec (Z.abs r) INF_RANK); [lia|] end.
    match goal with |- context [Z.abs ?r =? _] =>
      destruct (Z.eqb_spec (Z.abs r) INF_RANK); [lia|] end.
    apply representable_bounds in Hx as [Hmx Hex].
    apply representable_bounds in Hy as [Hmy Hey].
    unfold fadd, PyFloat.prec, PyFloat.emax. cbn [SFadd].
    change cond_Zopp with signed. rewrite !shl_align_fst by lia.
    destruct (normalize_rank
                (signed sx (Z.pos mx * 2 ^ (ex - Z.min ex ey))
                 + signed sy (Z.pos my * 2 ^ (ey - Z.min ex ey)))
                (Z.min ex ey) ltac:(lia)) as [Hr Hp].
    split; [|intros _; exact Hp]. rewrite Hr. f_equal. f_equal.
    rewrite Z.mul_add_distr_r.
    assert (Hs : forall (s : bool) (m : positive) (e : Z),
               Z.min ex ey <= e ->
               signed s (Z.pos m * 2 ^ (e - Z.min ex ey)) * 2 ^ (Z.min ex ey + 1074)
               = signed s (Z.pos m * 2 ^ (e + 1074))).
    { intros s m e Hle.
      replace (e + 1074) with ((e - Z.min ex ey) + (Z.min ex ey + 1074)) by lia.
      rewrite (Z.pow_add_r 2 (e - Z.min ex ey) (Z.min ex ey + 1074)) by lia.
      unfold signed. destruct s; ring. }
    rewrite !Hs by lia. reflexivity.
Qed.

Lemma of_int_rank (n : Z) (f : float) :
  of_int n = Return f ->
  rank f = Some (frnd 0 (n * 2 ^ 1074))
  /\ representable f = true /\ is_finite f = true.
Proof.
  unfold of_int, PyFloat.prec, PyFloat.emax.
  destruct (normalize_rank n 0 ltac:(lia)) as [Hr Hp].
  change (0 + 1074) with 1074 in Hr.
  destruct (binary_normalize 53 1024 n 0 false) as [s|s| |s m e];
    intros H; try discriminate; injection H as <-; repeat split; assumption.
Qed.

(** [int(x)] truncates the rank. *)
Lemma to_int_rank (x : float) (r n : Z) :
  representable x = true -> rank x = Some r -> to_int x = Return n ->
  n = r ÷ 2 ^ 1074.
Proof.
  intros Hrep Hr Hn.
  assert (H1074 : 0 < 2 ^ 1074) by (apply pow2_pos; lia).
  destruct x as [s|s| |s m e]; try discriminate.
  - cbn in Hr, Hn. injection Hr as <-. injection Hn as <-.
    symmetry. apply Z.quot_0_l. lia.
  - apply representable_bounds in Hrep as [Hm He].
    cbn [rank] in Hr. injection Hr as <-.
    cbn [to_int] in Hn. injection Hn as <-.
    assert (Ha : (match e with
                  | Z.neg p => Z.pos m / 2 ^ Z.pos p
                  | _ => Z.pos m * 2 ^ e
                  end) = (Z.pos m * 2 ^ (e + 1074)) ÷ 2 ^ 1074).
    { pose proof (pow2_pos (e + 1074) ltac:(lia)).
      rewrite Z.quot_div_nonneg by lia.
      destruct e as [|p|p].
      - change (0 + 1074) with 1074. rewrite Z.div_mul by lia. lia.
      - rewrite Z.pow_add_r by lia. rewrite Z.mul_assoc, Z.div_mul by lia.
        reflexivity.
      - replace 1074 with (Z.pos p + (Z.neg p + 1074)) at 2 by lia.
        rewrite (Z.pow_add_r 2 (Z.pos p) (Z.neg p + 1074)) by lia.
        rewrite Z.div_mul_cancel_r; [reflexivity| |].
        + pose proof (pow2_pos (Z.pos p) ltac:(lia)). lia.
        + pose proof (pow2_pos (Z.neg p + 1074) ltac:(lia)). lia. }
    rewrite Ha. unfold signed. destruct s; [|reflexivity].
    rewrite Z.quot_opp_l by lia. reflexivity.
Qed.

Lemma max0_rank (x : float) : rank (max0 x) = Some (opt0 (rank x)).
Proof.
  unfold max0, fgt, f0_0, SFltb.
  destruct x as [s|s| |s m e]; try reflexivity.
  - destruct s; cbn; f_equal; pose proof INF_RANK_pos; lia.
  - destruct s; cbn [SFcompare rank opt0 signed]; f_equal.
    + pose proof (Z.pow_nonneg 2 (e + 1074) ltac:(lia)). lia.
    + pose proof (Z.pow_nonneg 2 (e + 1074) ltac:(lia)). lia.
Qed.

Lemma valid_representable (x : float) :
  valid x = true -> is_finite x = true -> representable x = true.
Proof.
  destruct x as [s|s| |s m e]; try reflexivity; try discriminate.
  unfold valid, valid_binary, bounded, canonical_mantissa, PyFloat.prec,
    PyFloat.emax.
  intros H _. apply andb_prop in H as [Hc He].
  apply Z.eqb_eq in Hc. apply Z.leb_le in He.
  change (Z.pos (digits2_pos m)) with (Zdigits2 (Z.pos m)) in Hc.
  rewrite fexp_grid in Hc. unfold grid_exponent in Hc.
  pose proof (log2_bounds m) as [_ Hhi].
  pose proof (Z.log2_nonneg (Z.pos m)).
  apply representable_finite; [|lia].
  eapply Z.lt_le_trans; [exact Hhi|]. apply Z.pow_le_mono_r; lia.
Qed.

Lemma rank_finite (x : float) :
  representable x = true -> is_finite x = true ->
  exists r : Z, rank x = Some r /\ Z.abs r < INF_RANK.
Proof.
  intros Hrep Hfin. destruct x as [s|s| |s m e]; try discriminate.
  - exists 0. split; [reflexivity|]. pose proof INF_RANK_pos. lia.
  - eexists. split; [reflexivity|]. apply rank_finite_bounds. exact Hrep.
Qed.

(** Sums are monotone, also through the clamp at zero that turns the NaN
    of [inf - inf] into [0.0]. *)
Lemma eadd_mono0 (a a' b b' : Z) :
  Z.abs a <= INF_RANK -> Z.abs a' <= INF_RANK ->
  Z.abs b <= INF_RANK -> Z.abs b' <= INF_RANK ->
  a <= a' -> b <= b' ->
  opt0 (eadd a b) <= opt0 (eadd a' b').
Proof.
  intros Ha Ha' Hb Hb' Haa Hbb. pose proof INF_RANK_pos.
  pose proof (frnd_bounds 0 (a + b)). pose proof (frnd_bounds 0 (a' + b')).
  pose proof (frnd_mono 0 (a + b) (a' + b') ltac:(lia) ltac:(lia)).
  unfold eadd.
  repeat match goal with
         | |- context [Z.eqb ?u ?v] => destruct (Z.eqb_spec u v)
         end; cbn [opt0]; lia.
Qed.

Lemma eadd_mono (a a' b b' t t' : Z) :
  Z.abs a <= INF_RANK -> Z.abs a' <= INF_RANK ->
  Z.abs b <= INF_RANK -> Z.abs b' <= INF_RANK ->
  a <= a' -> b <= b' ->
  eadd a b = Some t -> eadd a' b' = Some t' ->
  Z.abs t < INF_RANK -> Z.abs t' < INF_RANK ->
  t <= t'.
Proof.
  intros Ha Ha' Hb Hb' Haa Hbb. pose proof INF_RANK_pos.
  pose proof (frnd_mono 0 (a + b) (a' + b') ltac:(lia) ltac:(lia)).
  unfold eadd.
  repeat match goal with
         | |- context [Z.eqb ?u ?v] => destruct (Z.eqb_spec u v)
         end;
    intros E E' Ht Ht'; try discriminate;
    injection E as <-; injection E' as <-; lia.
Qed.

(** The product of an input with a coefficient is monotone in the
    input. *)
Lemma fmul_mono (x x' : float) (mc : positive) (ec : Z) :
  valid x = true -> valid x' = true ->
  is_finite x = true -> is_finite x' = true ->
  ec <= 0 -> fle x x' ->
  exists r r' : Z,
    rank (fmul x (S754_finite false mc ec)) = Some r
    /\ rank (fmul x' (S754_finite false mc ec)) = Some r'
    /\ representable (fmul x (S754_finite false mc ec)) = true
    /\ representable (fmul x' (S754_finite false mc ec)) = true
    /\ Z.abs r <= INF_RANK /\ Z.abs r' <= INF_RANK /\ r <= r'.
Proof.
  intros Hv Hv' Hf Hf' Hec Hle.
  pose proof (valid_representable x Hv Hf) as Hr.
  pose proof (valid_representable x' Hv' Hf') as Hr'.
  destruct (rank_finite x Hr Hf) as (a & Ha & _).
  destruct (rank_finite x' Hr' Hf') as (a' & Ha' & _).
  unfold fle in Hle. rewrite Ha, Ha' in Hle.
  destruct (fmul_rank x mc ec a Hr Hf Ha Hec) as [H1 H2].
  destruct (fmul_rank x' mc ec a' Hr' Hf' Ha' Hec) as [H1' H2'].
  pose proof (frnd_bounds (- ec) (a * Z.pos mc)).
  pose proof (frnd_bounds (- ec) (a' * Z.pos mc)).
  do 2 eexists. repeat split; try eassumption; try lia.
  apply frnd_mono; [lia|]. apply Z.mul_le_mono_nonneg_r; lia.
Qed.

Lemma of_int_mono (n n' : Z) (f f' : float) :
  of_int n = Return f -> of_int n' = Return f' -> n <= n' ->
  exists r r' : Z,
    rank (fmul f f1_03) = Some r /\ rank (fmul f' f1_03) = Some r'
    /\ representable (fmul f f1_03) = true
    /\ representable (fmul f' f1_03) = true
    /\ Z.abs r <= INF_RANK /\ Z.abs r' <= INF_RANK /\ r <= r'.
Proof.
  intros Hf Hf' Hn.
  destruct (of_int_rank n f Hf) as (Ha & Hr & Hfin).
  destruct (of_int_rank n' f' Hf') as (Ha' & Hr' & Hfin').
  unfold f1_03.
  destruct (fmul_rank f 4638707616191611 (-52) _ Hr Hfin Ha ltac:(lia)) as [H1 H2].
  destruct (fmul_rank f' 4638707616191611 (-52) _ Hr' Hfin' Ha' ltac:(lia)) as [H1' H2'].
  match type of H1 with _ = Some ?r => pose proof (frnd_bounds 52 _ : _ <= r <= _) end.
  match type of H1' with _ = Some ?r => pose proof (frnd_bounds 52 _ : _ <= r <= _) end.
  do 2 eexists. repeat split; try eassumption; try lia.
  apply frnd_mono; [lia|]. apply Z.mul_le_mono_nonneg_r; [lia|].
  apply frnd_mono; [lia|]. apply Z.mul_le_mono_nonneg_r; [|lia].
  apply Z.pow_nonneg. lia.
Qed.

Lemma finite_not_nan (x : float) : is_finite x = true -> is_nan x = false.
Proof. destruct x; try discriminate; reflexivity. Qed.

Lemma to_int_finite (x : float) (n : Z) :
  to_int x = Return n -> is_finite x = true.
Proof. destruct x; try discriminate; reflexivity. Qed.

(** ** Well-formed results, and the order of Python *)

Lemma valid_finite (s : bool) (m : positive) (e : Z) :
  valid (S754_finite s m e) = true <-> grid_exponent m e = e /\ e <= 971.
Proof.
  unfold valid, valid_binary, bounded, canonical_mantissa, PyFloat.prec,
    PyFloat.emax.
  change (Z.pos (digits2_pos m)) with (Zdigits2 (Z.pos m)).
  rewrite fexp_grid, andb_true_iff, Z.eqb_eq, Z.leb_le. reflexivity.
Qed.

Lemma pack_valid (s : bool) (q e : Z) :
  -1074 <= e -> 0 <= q <= 2 ^ 53 -> e = -1074 \/ 2 ^ 52 <= q ->
  valid (pack s q e) = true.
Proof.
  intros He Hq Hn. unfold pack.
  destruct (Z.eqb_spec q (2 ^ 53)) as [->|Hne].
  - change (2 ^ 52) with (Z.pos (2 ^ 52)%positive). cbv iota beta.
    destruct (Z.leb_spec (e + 1) 971); [|reflexivity].
    apply valid_finite. split; [|lia]. unfold grid_exponent.
    change (Z.log2 (Z.pos (2 ^ 52))) with 52. lia.
  - destruct q as [|p|p]; [reflexivity| |lia].
    destruct (Z.leb_spec e 971); [|reflexivity].
    apply valid_finite. split; [|lia]. unfold grid_exponent.
    assert (Hl : Z.log2 (Z.pos p) < 53) by (apply Z.log2_lt_pow2; lia).
    destruct Hn as [->|Hn]; [lia|].
    assert (52 <= Z.log2 (Z.pos p)) by (apply Z.log2_le_pow2; lia).
    lia.
Qed.

Lemma round_aux_valid (s : bool) (m : positive) (e : Z) :
  grid_exponent m e <= e -> grid_exponent m e = e ->
  valid (binary_round_aux 53 1024 s (Z.pos m) e loc_Exact) = true.
Proof.
  intros H Hg. rewrite round_aux_noshift by exact H.
  destruct (Z.leb_spec e 971); [|reflexivity].
  apply valid_finite. split; assumption.
Qed.

Lemma round_aux_shift_valid (s : bool) (m : positive) (e : Z) :
  e < grid_exponent m e ->
  valid (binary_round_aux 53 1024 s (Z.pos m) e loc_Exact) = true.
Proof.
  intros H. rewrite round_aux_shift by exact H.
  destruct (rounded_mantissa_bounds m e H) as [Hq Hn].
  apply pack_valid; [apply grid_exponent_ge | exact Hq | exact Hn].
Qed.

Lemma round_valid (s : bool) (m : positive) (e : Z) :
  valid (binary_round 53 1024 s m e) = true.
Proof.
  unfold binary_round.
  change (Z.pos (digits2_pos m)) with (Zdigits2 (Z.pos m)). rewrite fexp_grid.
  pose proof (grid_exponent_ge m e) as HE.
  unfold shl_align.
  destruct (grid_exponent m e - e) as [|d|d] eqn:Hd.
  - apply round_aux_valid; lia.
  - apply round_aux_shift_valid; lia.
  - assert (Hz : Z.pos (Pos.iter xO m d) = Z.pos m * 2 ^ (e - grid_exponent m e)).
    { rewrite iter_xO. f_equal. f_equal. lia. }
    assert (Hg : grid_exponent (Pos.iter xO m d) (grid_exponent m e)
                 = grid_exponent m e).
    { unfold grid_exponent at 1. rewrite Hz, log2_scaled by lia.
      unfold grid_exponent. lia. }
    apply round_aux_valid; lia.
Qed.

Lemma normalize_valid (n e : Z) :
  valid (binary_normalize 53 1024 n e false) = true.
Proof. destruct n; cbn [binary_normalize]; [reflexivity| |]; apply round_valid. Qed.

Lemma fadd_valid (x y : float) :
  valid x = true -> valid y = true -> valid (fadd x y) = true.
Proof.
  intros Hx Hy.
  destruct x as [sx|sx| |sx mx ex]; destruct y as [sy|sy| |sy my ey];
    try reflexivity; try assumption;
    try (destruct sx, sy; reflexivity).
  unfold fadd, PyFloat.prec, PyFloat.emax. cbn [SFadd]. apply normalize_valid.
Qed.

(** A product with a coefficient of 53 significant bits and exponent at
    most [-52] always loses bits, so it goes through the rounding. *)
Lemma fmul_valid (x : float) (mc : positive) (ec : Z) :
  valid x = true -> Z.log2 (Z.pos mc) = 52 -> ec <= -52 ->
  valid (fmul x (S754_finite false mc ec)) = true.
Proof.
  intros Hx Hmc Hec.
  destruct x as [s|s| |s m e]; try reflexivity.
  apply valid_finite in Hx as [Hg He].
  unfold fmul, PyFloat.prec, PyFloat.emax. cbn [SFmul].
  apply round_aux_shift_valid.
  unfold grid_exponent in *. rewrite Pos2Z.inj_mul.
  pose proof (Z.log2_mul_below (Z.pos m) (Z.pos mc) ltac:(lia) ltac:(lia)).
  pose proof (Z.log2_nonneg (Z.pos m)).
  lia.
Qed.

Lemma max0_valid (x : float) : valid x = true -> valid (max0 x) = true.
Proof. intros H. unfold max0. destruct (fgt x f0_0); [exact H | reflexivity]. Qed.

(** Between two well-formed finite floats of one sign, the smaller
    exponent is the smaller number. *)
Lemma canonical_lt (m1 m2 : positive) (e1 e2 : Z) :
  grid_exponent m1 e1 = e1 -> grid_exponent m2 e2 = e2 -> e1 < e2 ->
  Z.pos m1 * 2 ^ (e1 + 1074) < Z.pos m2 * 2 ^ (e2 + 1074).
Proof.
  unfold grid_exponent. intros H1 H2 Hlt.
  pose proof (log2_bounds m1) as [_ Hhi].
  pose proof (log2_bounds m2) as [Hlo _].
  assert (L1 : Z.log2 (Z.pos m1) <= 52) by lia.
  assert (L2 : Z.log2 (Z.pos m2) = 52) by lia.
  rewrite L2 in Hlo.
  assert (A : Z.pos m1 < 2 ^ 53).
  { eapply Z.lt_le_trans; [exact Hhi|]. apply Z.pow_le_mono_r; lia. }
  pose proof (pow2_pos (e1 + 1074) ltac:(lia)) as P1.
  assert (B : 2 * 2 ^ (e1 + 1074) <= 2 ^ (e2 + 1074)).
  { rewrite <- Z.pow_succ_r by lia. apply Z.pow_le_mono_r; lia. }
  change (2 ^ 53) with (2 * 2 ^ 52) in A. nia.
Qed.

Lemma valid_rank_bounds (s : bool) (m : positive) (e : Z) :
  valid (S754_finite s m e) = true ->
  0 < Z.pos m * 2 ^ (e + 1074) < INF_RANK.
Proof.
  intros H. apply valid_finite in H as [Hg He].
  pose proof (grid_exponent_ge m e).
  assert (Hm : Z.log2 (Z.pos m) < 53) by (unfold grid_exponent in Hg; lia).
  assert (Z.pos m < 2 ^ 53) by (apply Z.log2_lt_pow2; lia).
  pose proof (mantissa_rank_lt (Z.pos m) e ltac:(lia) ltac:(lia)).
  pose proof (pow2_pos (e + 1074) ltac:(lia)). nia.
Qed.

(** On well-formed floats the order of the ranks is Python's [<=]. *)
Lemma fle_fge (x y : float) :
  valid x = true -> valid y = true -> fle x y -> fge y x = true.
Proof.
  intros Vx Vy. unfold fle, fge, SFleb.
  pose proof INF_RANK_pos as HI.
  destruct x as [sx|sx| |sx mx ex]; destruct y as [sy|sy| |sy my ey];
    cbn [rank SFcompare]; intros H; try contradiction;
    try pose proof (valid_rank_bounds _ _ _ Vx) as Bx;
    try pose proof (valid_rank_bounds _ _ _ Vy) as By;
    unfold signed in H.
  1-8: try destruct sx; try destruct sy; try reflexivity; lia.
  apply valid_finite in Vx as [Gx Ex]. apply valid_finite in Vy as [Gy Ey].
  destruct sx, sy; try reflexivity.
  - (* both negative *)
    destruct (Z.compare_spec ex ey) as [E|E|E]; try reflexivity.
    + subst ey. rewrite Pos.compare_cont_spec. cbn [Pos.switch_Eq].
      destruct (Pos.compare_spec mx my) as [F|F|F]; try reflexivity.
      exfalso. assert (Z.pos mx < Z.pos my) by lia. nia.
    + exfalso. pose proof (canonical_lt mx my ex ey Gx Gy E). lia.
  - exfalso. lia.
  - (* both positive *)
    destruct (Z.compare_spec ex ey) as [E|E|E]; try reflexivity.
    + subst ey. rewrite Pos.compare_cont_spec. cbn [Pos.switch_Eq].
      destruct (Pos.compare_spec mx my) as [F|F|F]; try reflexivity.
      exfalso. assert (Z.pos my < Z.pos mx) by lia. nia.
    + exfalso. pose proof (canonical_lt my mx ey ex Gy Gx E). lia.
Qed.

Lemma predicted_sales_valid (sales marketing_spend : float) :
  valid sales = true -> valid marketing_spend = true ->
  valid (max0 (fadd (fmul sales f1_05) (fmul marketing_spend f0_5))) = true.
Proof.
  intros Vs Vm. apply max0_valid, fadd_valid; apply fmul_valid;
    try assumption; try reflexivity; lia.
Qed.

(** Monotonicity in the three arguments at once. *)
Lemma predict_monotone_joint
  (sales sales' : float) (orders orders' : Z)
  (marketing_spend marketing_spend' : float)
  (psales psales' : float) (porders porders' : Z) :
  valid sales = true -> valid sales' = true ->
  valid marketing_spend = true -> valid marketing_spend' = true ->
  is_finite sales = true -> is_finite sales' = true ->
  is_finite marketing_spend = true -> is_finite marketing_spend' = true ->
  fle sales sales' -> orders <= orders' -> fle marketing_spend marketing_spend' ->
  baseline_predict sales orders marketing_spend = Return (psales, porders) ->
  baseline_predict sales' orders' marketing_spend' = Return (psales', porders') ->
  (fle psales psales' /\ fge psales' psales = true) /\ porders <= porders'.
Proof.
  intros Vs Vs' Vm Vm' Fs Fs' Fm Fm' Ls Lo Lm H H'.
  unfold baseline_predict in H, H'.
  destruct (of_int orders) as [f|] eqn:Ef; [|discriminate].
  destruct (of_int orders') as [f'|] eqn:Ef'; [|discriminate].
  cbn in H, H'.
  destruct (to_int (fadd (fmul f f1_03) (fmul marketing_spend f0_02)))
    as [n|] eqn:En; [|discriminate].
  destruct (to_int (fadd (fmul f' f1_03) (fmul marketing_spend' f0_02)))
    as [n'|] eqn:En'; [|discriminate].
  cbn in H, H'. injection H as <- <-. injection H' as <- <-.
  split.
  - (* predicted_sales *)
    destruct (fmul_mono sales sales' 4728779608739021 (-52) Vs Vs' Fs Fs' ltac:(lia) Ls)
      as (a & a' & Ha & Ha' & Ra & Ra' & Ba & Ba' & Haa).
    destruct (fmul_mono marketing_spend marketing_spend' 4503599627370496 (-53)
                Vm Vm' Fm Fm' ltac:(lia) Lm)
      as (b & b' & Hb & Hb' & Rb & Rb' & Bb & Bb' & Hbb).
    fold f1_05 in Ha, Ha', Ra, Ra'. fold f0_5 in Hb, Hb', Rb, Rb'.
    destruct (fadd_rank _ _ a b Ra Rb Ha Hb) as [Hs _].
    destruct (fadd_rank _ _ a' b' Ra' Rb' Ha' Hb') as [Hs' _].
    assert (Hle : fle (max0 (fadd (fmul sales f1_05) (fmul marketing_spend f0_5)))
                      (max0 (fadd (fmul sales' f1_05) (fmul marketing_spend' f0_5)))).
    { unfold fle. rewrite !max0_rank, Hs, Hs'. apply eadd_mono0; assumption. }
    split; [exact Hle|].
    apply fle_fge; [apply predicted_sales_valid .. | exact Hle]; assumption.
  - (* predicted_orders *)
    destruct (of_int_mono orders orders' f f' Ef Ef' Lo)
      as (a & a' & Ha & Ha' & Ra & Ra' & Ba & Ba' & Haa).
    destruct (fmul_mono marketing_spend marketing_spend' 5764607523034235 (-58)
                Vm Vm' Fm Fm' ltac:(lia) Lm)
      as (b & b' & Hb & Hb' & Rb & Rb' & Bb & Bb' & Hbb).
    fold f0_02 in Hb, Hb', Rb, Rb'.
    destruct (fadd_rank _ _ a b Ra Rb Ha Hb) as [Hs Hp].
    destruct (fadd_rank _ _ a' b' Ra' Rb' Ha' Hb') as [Hs' Hp'].
    pose proof (to_int_finite _ _ En) as Fn.
    pose proof (to_int_finite _ _ En') as Fn'.
    assert (Pn : representable (fadd (fmul f f1_03) (fmul marketing_spend f0_02)) = true).
    { apply Hp, finite_not_nan, Fn. }
    assert (Pn' : representable (fadd (fmul f' f1_03) (fmul marketing_spend' f0_02)) = true).
    { apply Hp', finite_not_nan, Fn'. }
    destruct (rank_finite _ Pn Fn) as (t & Ht & Bt).
    destruct (rank_finite _ Pn' Fn') as (t' & Ht' & Bt').
    rewrite Ht in Hs. rewrite Ht' in Hs'.
    pose proof (eadd_mono a a' b b' t t' Ba Ba' Bb Bb' Haa Hbb
                  (eq_sym Hs) (eq_sym Hs') Bt Bt') as Htt.
    rewrite (to_int_rank _ t n Pn Ht En), (to_int_rank _ t' n' Pn' Ht' En').
    assert (Hq : t ÷ 2 ^ 1074 <= t' ÷ 2 ^ 1074).
    { apply Z.quot_le_mono; [apply pow2_pos; lia | exact Htt]. }
    rewrite !clamp_int. lia.
Qed.

Lemma fle_refl (x : float) : is_finite x = true -> fle x x.
Proof. destruct x; try discriminate; intros _; unfold fle; cbn [rank]; lia. Qed.

Lemma fleb_fle (x y : float) : fleb x y = true -> fle x y.
Proof.
  unfold fleb, fle. destruct (rank x), (rank y); try discriminate.
  apply Z.leb_le.
Qed.

(** C8: on finite binary64 inputs, whenever the calls return:
    raising [sales] alone does not lower [predicted_sales]; raising
    [marketing_spend] alone lowers neither [predicted_sales] nor
    [predicted_orders]; raising [orders] alone does not lower
    [predicted_orders]; and the same holds when several arguments are
    raised together.  For the floats the comparison is stated both on the
    numbers ([fle]) and as the test [ps' >= ps] of Python ([fge]). *)
Theorem baseline_predict_monotone
  (sales sales' : float) (orders orders' : Z)
  (marketing_spend marketing_spend' : float) :
  valid sales = true -> valid sales' = true ->
  valid marketing_spend = true -> valid marketing_spend' = true ->
  is_finite sales = true -> is_finite sales' = true ->
  is_finite marketing_spend = true -> is_finite marketing_spend' = true ->
  fle sales sales' -> orders <= orders' -> fle marketing_spend marketing_spend' ->
  (forall (ps ps' : float) (po po' : Z),
      baseline_predict sales orders marketing_spend = Return (ps, po) ->
      baseline_predict sales' orders marketing_spend = Return (ps', po') ->
      fle ps ps' /\ fge ps' ps = true)
  /\ (forall (ps ps' : float) (po po' : Z),
        baseline_predict sales orders marketing_spend = Return (ps, po) ->
        baseline_predict sales orders marketing_spend' = Return (ps', po') ->
        (fle ps ps' /\ fge ps' ps = true) /\ po <= po')
  /\ (forall (ps ps' : float) (po po' : Z),
        baseline_predict sales orders marketing_spend = Return (ps, po) ->
        baseline_predict sales orders' marketing_spend = Return (ps', po') ->
        po <= po')
  /\ (forall (ps ps' : float) (po po' : Z),
        baseline_predict sales orders marketing_spend = Return (ps, po) ->
        baseline_predict sales' orders' marketing_spend' = Return (ps', po') ->
        (fle ps ps' /\ fge ps' ps = true) /\ po <= po').
Proof.
  intros Vs Vs' Vm Vm' Fs Fs' Fm Fm' Ls Lo Lm.
  pose proof (fle_refl sales Fs) as Rs.
  pose proof (fle_refl marketing_spend Fm) as Rm.
  split; [|split; [|split]]; intros ps ps' po po' H H'.
  - exact (proj1 (predict_monotone_joint sales sales' orders orders
                    marketing_spend marketing_spend ps ps' po po'
                    Vs Vs' Vm Vm Fs Fs' Fm Fm Ls (Z.le_refl _) Rm H H')).
  - exact (predict_monotone_joint sales sales orders orders
             marketing_spend marketing_spend' ps ps' po po'
             Vs Vs Vm Vm' Fs Fs Fm Fm' Rs (Z.le_refl _) Lm H H').
  - exact (proj2 (predict_monotone_joint sales sales orders orders'
                    marketing_spend marketing_spend ps ps' po po'
                    Vs Vs Vm Vm Fs Fs Fm Fm Rs Lo Rm H H')).
  - exact (predict_monotone_joint sales sales' orders orders'
             marketing_spend marketing_spend' ps ps' po po'
             Vs Vs' Vm Vm' Fs Fs' Fm Fm' Ls Lo Lm H H').
Qed.

Lemma baseline_predict_monotone_witness :
  let sales := S754_finite false 8796093022208000 (-43) in
  let sales' := S754_finite false 4837851162214400 (-42) in
  let spend := S754_finite false 7036874417766400 (-46) in
  let spend' := S754_finite false 5277655813324800 (-45) in
  (forall (ps ps' : float) (po po' : Z),
      baseline_predict sales 50 spend = Return (ps, po) ->
      baseline_predict sales' 50 spend = Return (ps', po') ->
      fle ps ps' /\ fge ps' ps = true)
  /\ (forall (ps ps' : float) (po po' : Z),
        baseline_predict sales 50 spend = Return (ps, po) ->
        baseline_predict sales 50 spend' = Return (ps', po') ->
        (fle ps ps' /\ fge ps' ps = true) /\ po <= po')
  /\ (forall (ps ps' : float) (po po' : Z),
        baseline_predict sales 50 spend = Return (ps, po) ->
        baseline_predict sales 60 spend = Return (ps', po') ->
        po <= po')
  /\ (forall (ps ps' : float) (po po' : Z),
        baseline_predict sales 50 spend = Return (ps, po) ->
        baseline_predict sales' 60 spend' = Return (ps', po') ->
        (fle ps ps' /\ fge ps' ps = true) /\ po <= po').
Proof.
  intros sales sales' spend spend'.
  apply (baseline_predict_monotone sales sales' 50 60 spend spend');
    try reflexivity; try (apply fleb_fle; vm_compute; reflexivity).
  lia.
Defined.

(** The worked example again, on both sides of a raise: 1000, 50, 100
    give 1100.0 and 53; 1100, 60, 150 give 1230.0 and 64. *)
Example predict_1100_60_150 :
  baseline_predict (S754_finite false 4837851162214400 (-42)) 60
                   (S754_finite false 5277655813324800 (-45))
  = Return (S754_finite false 5409597208657920 (-42), 64).
Proof. vm_compute. reflexivity. Qed.

Example predict_0_0_0 : baseline_predict f0_0 0 f0_0 = Return (f0_0, 0).
Proof. vm_compute. reflexivity. Qed.

(** The literals are the binary64 numbers nearest to 1.05, 0.5, 1.03 and
    0.02: each is within half a unit in the last place of the decimal. *)
Example literals_are_nearest :
  2 * Z.abs (100 * 4728779608739021 - 105 * 2 ^ 52) <= 100
  /\ 2 * 4503599627370496 = 2 ^ 53
  /\ 2 * Z.abs (100 * 4638707616191611 - 103 * 2 ^ 52) <= 100
  /\ 2 * Z.abs (100 * 5764607523034235 - 2 * 2 ^ 58) <= 100
  /\ valid f1_05 = true /\ valid f0_5 = true
  /\ valid f1_03 = true /\ valid f0_02 = true.
Proof. repeat split; try reflexivity; vm_compute; discriminate. Qed.

(** ** The range on which the prediction returns *)

Lemma round_units_le (p v k : Z) :
  0 <= p -> 0 <= v <= 2 ^ k -> p <= k -> round_units p v <= 2 ^ (k - p).
Proof.
  intros Hp Hv Hk. apply round_units_le_pow; try lia.
  destruct (Z.eq_dec v 0) as [->|Hne].
  - cbn. lia.
  - assert (0 <= k).
    { destruct (Z.le_gt_cases 0 k); [assumption|].
      rewrite Z.pow_neg_r in Hv by lia. lia. }
    assert (Z.log2 v <= k).
    { rewrite <- (Z.log2_pow2 k) by lia. apply Z.log2_le_mono. lia. }
    lia.
Qed.

Lemma frnd_le (p v k : Z) :
  0 <= p -> Z.abs v <= 2 ^ k -> p <= k -> Z.abs (frnd p v) <= 2 ^ (k - p).
Proof.
  intros Hp Hv Hk. pose proof INF_RANK_pos.
  pose proof (pow2_pos (k - p) ltac:(lia)).
  unfold frnd, sclamp, sround. destruct (Z.ltb_spec v 0).
  - pose proof (round_units_le p (- v) k Hp ltac:(lia) Hk).
    pose proof (round_units_nonneg p (- v) Hp ltac:(lia)). lia.
  - pose proof (round_units_le p v k Hp ltac:(lia) Hk).
    pose proof (round_units_nonneg p v Hp ltac:(lia)). lia.
Qed.

Lemma rank_lt_finite (x : float) (r : Z) :
  rank x = Some r -> Z.abs r < INF_RANK -> is_finite x = true.
Proof.
  destruct x as [s|s| |s m e]; try reflexivity; try discriminate.
  cbn [rank]. intros H. injection H as <-. unfold signed. destruct s; lia.
Qed.

Lemma pow2_le_INF (k : Z) : k < 2098 -> 2 ^ k < INF_RANK.
Proof.
  intros Hk. unfold INF_RANK. destruct (Z.le_gt_cases 0 k).
  - apply Z.pow_lt_mono_r; lia.
  - rewrite Z.pow_neg_r by lia. apply pow2_pos. lia.
Qed.

Lemma of_int_finite (n : Z) :
  is_finite (binary_normalize 53 1024 n 0 false) = true ->
  of_int n = Return (binary_normalize 53 1024 n 0 false).
Proof.
  unfold of_int, PyFloat.prec, PyFloat.emax.
  destruct (binary_normalize 53 1024 n 0 false); try discriminate; reflexivity.
Qed.

(** Every finite [marketing_spend] and every [orders] up to [2^1000] in
    magnitude give a finite value to
    [orders * 1.03 + marketing_spend * 0.02]. *)
Lemma orders_value_finite_in_range (orders : Z) (marketing_spend : float) :
  valid marketing_spend = true -> is_finite marketing_spend = true ->
  Z.abs orders <= 2 ^ 1000 ->
  orders_value_finite orders marketing_spend = true.
Proof.
  intros Vm Fm Ho.
  pose proof (valid_representable _ Vm Fm) as Rm.
  destruct (rank_finite _ Rm Fm) as (b & Hb & Bb).
  (* the conversion of [orders] *)
  destruct (normalize_rank orders 0 ltac:(lia)) as [Hn Rn].
  change (0 + 1074) with 1074 in Hn.
  assert (Bn : Z.abs (frnd 0 (orders * 2 ^ 1074)) <= 2 ^ 2074).
  { change 2074 with (2074 - 0). apply frnd_le; lia. }
  pose proof (pow2_le_INF 2074 ltac:(lia)) as I1.
  pose proof (rank_lt_finite _ _ Hn ltac:(lia)) as Fn.
  unfold orders_value_finite. rewrite (of_int_finite orders Fn).
  set (F := binary_normalize 53 1024 orders 0 false) in *.
  unfold f1_03, f0_02.
  destruct (fmul_rank F 4638707616191611 (-52) _ Rn Fn Hn ltac:(lia)) as [Hc Rc].
  destruct (fmul_rank marketing_spend 5764607523034235 (-58) _ Rm Fm Hb ltac:(lia))
    as [Hd Rd].
  change (- (-52)) with 52 in Hc. change (- (-58)) with 58 in Hd.
  assert (Bc : Z.abs (frnd 52 (frnd 0 (orders * 2 ^ 1074) * 4638707616191611))
               <= 2 ^ 2075)
    by (change 2075 with (2127 - 52); apply frnd_le; lia).
  assert (Bd : Z.abs (frnd 58 (b * 5764607523034235)) <= 2 ^ 2093)
    by (change 2093 with (2151 - 58); apply frnd_le; unfold INF_RANK in Bb; lia).
  pose proof (pow2_le_INF 2075 ltac:(lia)) as I2.
  pose proof (pow2_le_INF 2093 ltac:(lia)) as I3.
  pose proof (pow2_le_INF 2094 ltac:(lia)) as I4.
  destruct (fadd_rank _ _ _ _ Rc Rd Hc Hd) as [Hs _].
  unfold eadd in Hs.
  repeat match type of Hs with
         | context [Z.eqb ?u ?v] => destruct (Z.eqb_spec u v); [lia|]
         end.
  apply (rank_lt_finite _ _ Hs).
  eapply Z.le_lt_trans; [|exact I4].
  assert (2 ^ 2075 <= 2 ^ 2093) by (apply Z.pow_le_mono_r; lia).
  assert (2 ^ 2094 = 2 * 2 ^ 2093)
    by (change 2094 with (Z.succ 2093); apply Z.pow_succ_r; lia).
  change 2094 with (2094 - 0). apply frnd_le; lia.
Qed.

(** On that range the prediction returns, with both values non-negative
    and given by the formulas of the specification. *)
Lemma baseline_predict_returns_in_range
  (sales : float) (orders : Z) (marketing_spend : float) :
  valid marketing_spend = true -> is_finite marketing_spend = true ->
  Z.abs orders <= 2 ^ 1000 ->
  exists n : Z,
    spec_predicted_orders orders marketing_spend = Return n
    /\ 0 <= n
    /\ baseline_predict sales orders marketing_spend
       = Return (spec_predicted_sales sales marketing_spend, n).
Proof.
  intros Vm Fm Ho.
  pose proof (orders_value_finite_in_range orders marketing_spend Vm Fm Ho) as Hf.
  unfold orders_value_finite, baseline_predict, spec_predicted_orders,
    spec_predicted_sales in *.
  destruct (of_int orders) as [f|e]; cbn; [|discriminate].
  destruct (to_int_floor _ Hf) as (a & b & Ha & Hb & Hab).
  rewrite Ha, Hb. cbn. exists (Z.max 0 b). split; [reflexivity|]. split; [lia|].
  rewrite clamp_int, Hab. reflexivity.
Qed.

(** * The routes beyond the claims *)

(** ** The request models against the schemas *)

Lemma float_field_ge (b : float) (v : value) (x : float) :
  float_field (Some b) v = Some x
  <-> float_field None v = Some x /\ fge x b = true.
Proof.
  unfold float_field. destruct (as_float v) as [f|]; cbn; [|split; [discriminate | intros [? _]; discriminate]].
  destruct (fge f b) eqn:E; split.
  - intros H. injection H as <-. split; [reflexivity | exact E].
  - intros [H _]. exact H.
  - discriminate.
  - intros [H G]. injection H as <-. congruence.
Qed.

Lemma int_field_ge (b : Z) (v : value) (n : Z) :
  int_field (Some b) v = Some n <-> int_field None v = Some n /\ b <= n.
Proof.
  unfold int_field. destruct (as_int v) as [k|]; cbn; [|split; [discriminate | intros [? _]; discriminate]].
  destruct (Z.leb_spec b k) as [Hle|Hgt]; split.
  - intros H. injection H as <-. split; [reflexivity | assumption].
  - intros [H _]. exact H.
  - discriminate.
  - intros [H G]. injection H as <-. lia.
Qed.

Lemma bind_Some {A B : Type} (o : option A) (f : A -> option B) (y : B) :
  o ≫= f = Some y <-> exists x : A, o = Some x /\ f x = Some y.
Proof.
  destruct o as [x|]; cbn; split.
  - intros H. exists x. split; [reflexivity | exact H].
  - intros (x' & E & H). injection E as <-. exact H.
  - discriminate.
  - intros (x' & E & _). discriminate.
Qed.

(** X1: the schema [Metric] of [schemas.py] accepts exactly the bodies the
    request model [MetricIn] of [main.py] accepts with [sales >= 0],
    [orders >= 0] and [marketing_spend >= 0], and yields the same fields:
    the two differ in the three bounds and in nothing else. *)
Theorem schema_is_request_model_with_bounds (body : document) (p : MetricIn) :
  validate_Metric body = Some p
  <-> validate_MetricIn body = Some p
      /\ fge (mi_sales p) f0_0 = true /\ 0 <= mi_orders p
      /\ fge (mi_marketing_spend p) f0_0 = true.
Proof.
  unfold validate_Metric, validate_MetricIn.
  generalize (body !! lit "period" ≫= as_date) (body !! lit "sales")
    (body !! lit "orders") (body !! lit "marketing_spend").
  intros [d|] [vs|] [vo|] [vm|]; cbn.
  2-16: repeat match goal with
               | |- context [float_field ?g ?v] => destruct (float_field g v); cbn
               | |- context [int_field ?g ?v] => destruct (int_field g v); cbn
               end;
        (split; [discriminate | intros [? _]; discriminate]).
  split.
  - intros H.
    destruct (float_field (Some f0_0) vs) as [s|] eqn:Es; [|discriminate].
    destruct (int_field (Some 0) vo) as [o|] eqn:Eo; [|discriminate].
    destruct (float_field (Some f0_0) vm) as [m|] eqn:Em; [|discriminate].
    cbn in H. injection H as <-.
    apply float_field_ge in Es as [Es Gs]. apply int_field_ge in Eo as [Eo Go].
    apply float_field_ge in Em as [Em Gm].
    rewrite Es, Eo, Em. cbn. repeat split; assumption.
  - intros (H & Gs & Go & Gm).
    destruct (float_field None vs) as [s|] eqn:Es; [|discriminate].
    destruct (int_field None vo) as [o|] eqn:Eo; [|discriminate].
    destruct (float_field None vm) as [m|] eqn:Em; [|discriminate].
    cbn in H. injection H as <-. cbn in Gs, Go, Gm.
    rewrite (proj2 (float_field_ge f0_0 vs s) (conj Es Gs)).
    rewrite (proj2 (int_field_ge 0 vo o) (conj Eo Go)).
    rewrite (proj2 (float_field_ge f0_0 vm m) (conj Em Gm)).
    reflexivity.
Qed.

(** X2: what [model_dump] produces passes the validation of its own model
    and gives the same payload back, for each of the four request
    models. *)
Theorem model_dump_validates :
  (forall p : MetricIn, validate_MetricIn (MetricIn_model_dump p) = Some p)
  /\ (forall p : PredictIn, validate_PredictIn (PredictIn_model_dump p) = Some p)
  /\ (forall p : ProfileIn, validate_ProfileIn (ProfileIn_model_dump p) = Some p)
  /\ (forall p : ReportIn, validate_ReportIn (ReportIn_model_dump p) = Some p).
Proof.
  repeat split.
  - intros [d s o m]. reflexivity.
  - intros [d s o m]. reflexivity.
  - intros [o b [e|] [ph|] [a|] [i|]]; reflexivity.
  - intros [t [n|] s]; reflexivity.
Qed.

Ltac peel_binds :=
  repeat match goal with
         | H : _ ≫= _ = Some _ |- _ => apply bind_Some in H as (? & ? & ?)
         end.

Lemma validate_needs_required (body : document) (k : pystr) :
  body !! k = None ->
  (k ∈ MetricIn_required ->
   validate_MetricIn body = None /\ validate_PredictIn body = None)
  /\ (k ∈ ProfileIn_required -> validate_ProfileIn body = None)
  /\ (k ∈ ReportIn_required -> validate_ReportIn body = None).
Proof.
  intros Hk.
  unfold MetricIn_required, ProfileIn_required, ReportIn_required.
  (split; [intros Hin; split | split; intros Hin]);
    repeat (apply elem_of_cons in Hin as [->|Hin]);
    try (apply elem_of_nil in Hin; contradiction);
    match goal with |- ?v = None => destruct v eqn:E; [exfalso|reflexivity] end;
    unfold validate_MetricIn, validate_PredictIn, validate_ProfileIn,
      validate_ReportIn in E;
    peel_binds; congruence.
Qed.

(** X3: a body that lacks a required field of the route's model is
    answered with 422 by the route, whether or not the database is
    configured, and the state is left as it was. *)
Theorem missing_required_field_is_422
  (py_str : value -> pystr) (body : document) (w : world) (k : pystr) :
  body !! k = None ->
  (k ∈ MetricIn_required ->
   post_api_metrics py_str body w = (Raise RequestValidationError, w)
   /\ post_api_predict py_str body w = (Raise RequestValidationError, w))
  /\ (k ∈ ProfileIn_required ->
      post_api_profile py_str body w = (Raise RequestValidationError, w))
  /\ (k ∈ ReportIn_required ->
      post_api_reports py_str body w = (Raise RequestValidationError, w))
  /\ status_of (@Raise unit RequestValidationError) = 422.
Proof.
  intros Hk. destruct (validate_needs_required body k Hk) as (Hm & Hp & Hr).
  unfold post_api_metrics, post_api_predict, post_api_profile, post_api_reports,
    validated.
  split; [intros H; destruct (Hm H) as [-> ->]; split; reflexivity|].
  split; [intros H; rewrite (Hp H); reflexivity|].
  split; [intros H; rewrite (Hr H); reflexivity | reflexivity].
Qed.

Lemma missing_required_field_is_422_witness :
  (lit "sales" ∈ MetricIn_required ->
   post_api_metrics sample_str ∅ sample_world = (Raise RequestValidationError, sample_world)
   /\ post_api_predict sample_str ∅ sample_world
      = (Raise RequestValidationError, sample_world))
  /\ (lit "sales" ∈ ProfileIn_required ->
      post_api_profile sample_str ∅ sample_world
      = (Raise RequestValidationError, sample_world))
  /\ (lit "sales" ∈ ReportIn_required ->
      post_api_reports sample_str ∅ sample_world
      = (Raise RequestValidationError, sample_world))
  /\ status_of (@Raise unit RequestValidationError) = 422.
Proof.
  apply (missing_required_field_is_422 sample_str ∅ sample_world (lit "sales")).
  reflexivity.
Defined.

(** ** The routes that create a record *)

Lemma inserted_appended (st : store) (name : pystr) (data : document) :
  appended st (inserted st name data) name
           (<[lit "_id" := VObjectId (next_oid st)]> data).
Proof.
  split; [apply records_of_inserted|].
  intros other Hne. unfold records_of, inserted. cbn.
  rewrite lookup_insert_ne by congruence. reflexivity.
Qed.

Lemma create_profile_some (py_str : value -> pystr) (w : world) (d : database)
      (payload : ProfileIn) :
  db w = Some d ->
  create_profile py_str payload w
  = (Return (list_to_map
               [ (lit "id", VStr (py_str (VObjectId (next_oid (db_store d)))));
                 (lit "message", VStr (lit "Profile created")) ]),
     set_db (with_store d (inserted (db_store d) (lit "profile")
                             (ProfileIn_model_dump payload))) w).
Proof.
  intros H. unfold create_profile, bind.
  rewrite (require_db_some w d H), (create_document_some py_str w d _ _ H).
  reflexivity.
Qed.

Lemma create_report_some (py_str : value -> pystr) (w : world) (d : database)
      (payload : ReportIn) :
  db w = Some d ->
  create_report py_str payload w
  = (Return (list_to_map
               [ (lit "id", VStr (py_str (VObjectId (next_oid (db_store d)))));
                 (lit "message", VStr (lit "Report created")) ]),
     set_db (with_store d (inserted (db_store d) (lit "report")
                             (ReportIn_model_dump payload))) w).
Proof.
  intros H. unfold create_report, bind.
  rewrite (require_db_some w d H), (create_document_some py_str w d _ _ H).
  reflexivity.
Qed.


Lemma create_appends_some (py_str : value -> pystr) (w : world) (d : database) :
  db w = Some d ->
  (forall profile : ProfileIn,
      created py_str w d (lit "profile") (ProfileIn_model_dump profile)
              (create_profile py_str profile w))
  /\ (forall metric : MetricIn,
        created py_str w d (lit "metric") (MetricIn_model_dump metric)
                (create_metric py_str metric w))
  /\ (forall report : ReportIn,
        created py_str w d (lit "report") (ReportIn_model_dump report)
                (create_report py_str report w)).
Proof.
  intros Hd. unfold created.
  split; [|split]; intros p;
    rewrite ?(create_profile_some py_str w d _ Hd),
      ?(create_metric_some py_str w d _ Hd), ?(create_report_some py_str w d _ Hd);
    eexists _, _; cbn [fst snd];
    (split; [reflexivity|]); (split; [reflexivity|]);
    (split; [reflexivity|]); (split; [reflexivity|]);
    apply inserted_appended.
Qed.

(** X5: on a configured database each of these three handlers appends
    exactly one record, the dumped payload with the new ["_id"], to the end
    of its own collection, leaves the other collections and the environment
    as they were, and returns the string of the new identifier. *)
Theorem create_appends_one_record
  (py_str : value -> pystr) (w : world) (d : database)
  (profile : ProfileIn) (metric : MetricIn) (report : ReportIn) :
  db w = Some d ->
  created py_str w d (lit "profile") (ProfileIn_model_dump profile)
          (create_profile py_str profile w)
  /\ created py_str w d (lit "metric") (MetricIn_model_dump metric)
             (create_metric py_str metric w)
  /\ created py_str w d (lit "report") (ReportIn_model_dump report)
             (create_report py_str report w).
Proof.
  intros Hd. destruct (create_appends_some py_str w d Hd) as (Hp & Hm & Hr).
  split; [apply Hp | split; [apply Hm | apply Hr]].
Qed.

Lemma create_appends_one_record_witness :
  created sample_str sample_world sample_database (lit "profile")
          (ProfileIn_model_dump sample_ProfileIn)
          (create_profile sample_str sample_ProfileIn sample_world)
  /\ created sample_str sample_world sample_database (lit "metric")
             (MetricIn_model_dump sample_MetricIn)
             (create_metric sample_str sample_MetricIn sample_world)
  /\ created sample_str sample_world sample_database (lit "report")
             (ReportIn_model_dump sample_ReportIn)
             (create_report sample_str sample_ReportIn sample_world).
Proof.
  apply (create_appends_one_record sample_str sample_world sample_database
           sample_ProfileIn sample_MetricIn sample_ReportIn).
  reflexivity.
Defined.

(** ** Listing after creating *)

Lemma cap_app_one (limit : option Z) (l : list document) (r : document) :
  room_for_one_more limit (length l) ->
  cap limit (l ++ [r]) = cap limit l ++ [r].
Proof.
  destruct limit as [m|]; cbn; [|reflexivity].
  intros H. rewrite !take_ge by (rewrite ?length_app; cbn; lia). reflexivity.
Qed.

Lemma stringify_id_insert (py_str : value -> pystr) (v : value) (data : document) :
  stringify_id py_str (<[lit "_id" := v]> data)
  = <[lit "_id" := VStr (py_str v)]> data.
Proof.
  unfold stringify_id. rewrite lookup_insert_eq. apply insert_insert_eq.
Qed.

Lemma format_period_metric (v : value) (p : MetricIn) :
  format_period (<[lit "_id" := v]> (MetricIn_model_dump p))
  = <[lit "period" := VStr (date_isoformat (mi_period p))]>
      (<[lit "_id" := v]> (MetricIn_model_dump p)).
Proof. reflexivity. Qed.

Lemma db_set_db (d : database) (w : world) : db (set_db d w) = Some d.
Proof. reflexivity. Qed.

(** X6: creating a record and listing afterwards: the listing is the one
    from before the creation followed by one record more, the dumped payload
    with the returned identifier as a string under ["_id"] (and, for a
    metric, the period as an ISO string), provided the limit leaves room
    for it.  [GET /api/profile] has no limit. *)
Theorem created_record_is_listed_last
  (py_str : value -> pystr) (w : world) (d : database) (limit : option Z)
  (profile : ProfileIn) (metric : MetricIn) (report : ReportIn) :
  db w = Some d ->
  room_for_one_more limit (length (records_of (db_store d) (lit "metric"))) ->
  room_for_one_more limit (length (records_of (db_store d) (lit "report"))) ->
  let id := VStr (py_str (VObjectId (next_oid (db_store d)))) in
  (exists before : list document,
      get_profiles py_str w = (Return before, w)
      /\ fst (get_profiles py_str (snd (create_profile py_str profile w)))
         = Return (before ++ [<[lit "_id" := id]> (ProfileIn_model_dump profile)]))
  /\ (exists before : list document,
        list_metrics py_str limit w = (Return before, w)
        /\ fst (list_metrics py_str limit (snd (create_metric py_str metric w)))
           = Return (before
                     ++ [<[lit "period" := VStr (date_isoformat (mi_period metric))]>
                           (<[lit "_id" := id]> (MetricIn_model_dump metric))]))
  /\ (exists before : list document,
        list_reports py_str limit w = (Return before, w)
        /\ fst (list_reports py_str limit (snd (create_report py_str report w)))
           = Return (before ++ [<[lit "_id" := id]> (ReportIn_model_dump report)])).
Proof.
  intros Hd Hm Hr id.
  rewrite (create_profile_some py_str w d _ Hd),
    (create_metric_some py_str w d _ Hd), (create_report_some py_str w d _ Hd).
  cbn [snd].
  rewrite (get_profiles_some py_str w d Hd), (list_metrics_some py_str w d limit Hd),
    (list_reports_some py_str w d limit Hd).
  split; [|split]; eexists; (split; [reflexivity|]).
  - rewrite (get_profiles_some py_str _ _ (db_set_db _ _)).
    cbn [fst db_store with_store]. rewrite records_of_inserted, fmap_app.
    cbn [fmap list_fmap]. rewrite stringify_id_insert. reflexivity.
  - rewrite (list_metrics_some py_str _ _ limit (db_set_db _ _)).
    cbn [fst db_store with_store].
    rewrite records_of_inserted, cap_app_one by exact Hm.
    rewrite fmap_app. cbn [fmap list_fmap]. rewrite stringify_id_insert.
    rewrite format_period_metric. reflexivity.
  - rewrite (list_reports_some py_str _ _ limit (db_set_db _ _)).
    cbn [fst db_store with_store].
    rewrite records_of_inserted, cap_app_one by exact Hr.
    rewrite fmap_app. cbn [fmap list_fmap]. rewrite stringify_id_insert.
    reflexivity.
Qed.

Lemma created_record_is_listed_last_witness :
  let id := VStr (lit "000000000000000000000008") in
  (exists before : list document,
      get_profiles sample_str sample_world = (Return before, sample_world)
      /\ fst (get_profiles sample_str
                (snd (create_profile sample_str sample_ProfileIn sample_world)))
         = Return (before ++ [<[lit "_id" := id]>
                                (ProfileIn_model_dump sample_ProfileIn)]))
  /\ (exists before : list document,
        list_metrics sample_str (Some 50) sample_world = (Return before, sample_world)
        /\ fst (list_metrics sample_str (Some 50)
                  (snd (create_metric sample_str sample_MetricIn sample_world)))
           = Return (before
                     ++ [<[lit "period" := VStr (lit "2024-04-01")]>
                           (<[lit "_id" := id]> (MetricIn_model_dump sample_MetricIn))]))
  /\ (exists before : list document,
        list_reports sample_str (Some 50) sample_world = (Return before, sample_world)
        /\ fst (list_reports sample_str (Some 50)
                  (snd (create_report sample_str sample_ReportIn sample_world)))
           = Return (before ++ [<[lit "_id" := id]>
                                  (ReportIn_model_dump sample_ReportIn)])).
Proof.
  apply (created_record_is_listed_last sample_str sample_world sample_database
           (Some 50) sample_ProfileIn sample_MetricIn sample_ReportIn).
  - reflexivity.
  - vm_compute. lia.
  - vm_compute. lia.
Defined.

Lemma stringify_id_other (py_str : value -> pystr) (i : document) (key : pystr) :
  key <> lit "_id" -> stringify_id py_str i !! key = i !! key.
Proof. intros H. unfold stringify_id. apply lookup_insert_ne. congruence. Qed.

Lemma format_period_other (i : document) (key : pystr) :
  key <> lit "period" -> format_period i !! key = i !! key.
Proof.
  intros H. unfold format_period.
  destruct (i !! lit "period") as [v|]; [|reflexivity].
  destruct (is_date_or_datetime v); [|reflexivity].
  apply lookup_insert_ne. congruence.
Qed.

Lemma fmap_same_except (changed : list pystr) (f : document -> document)
      (stored : list document) :
  (forall (i : document) (key : pystr), key ∉ changed -> f i !! key = i !! key) ->
  same_except changed stored (f <$> stored).
Proof.
  intros Hf. split; [apply length_fmap|].
  intros k i r key Hi Hr Hkey.
  rewrite list_lookup_fmap, Hi in Hr. injection Hr as <-. apply Hf, Hkey.
Qed.

(** X7: on a configured database the three list routes change nothing in
    the state, return as many records as the storage gateway handed over,
    in the same order, and leave every field of a record as stored except
    ["_id"] and, for metrics, ["period"]. *)
Theorem listing_keeps_other_fields
  (py_str : value -> pystr) (w : world) (d : database) (limit : option Z) :
  db w = Some d ->
  (exists items : list document,
      get_profiles py_str w = (Return items, w)
      /\ same_except [lit "_id"] (records_of (db_store d) (lit "profile")) items)
  /\ (exists items : list document,
        list_metrics py_str limit w = (Return items, w)
        /\ same_except [lit "_id"; lit "period"]
                       (cap limit (records_of (db_store d) (lit "metric"))) items)
  /\ (exists items : list document,
        list_reports py_str limit w = (Return items, w)
        /\ same_except [lit "_id"]
                       (cap limit (records_of (db_store d) (lit "report"))) items).
Proof.
  intros Hd.
  rewrite (get_profiles_some py_str w d Hd), (list_metrics_some py_str w d limit Hd),
    (list_reports_some py_str w d limit Hd).
  split; [|split]; eexists; (split; [reflexivity|]);
    apply fmap_same_except; intros i key Hkey.
  - apply stringify_id_other. intros ->. apply Hkey. set_solver.
  - rewrite format_period_other.
    + apply stringify_id_other. intros ->. apply Hkey. set_solver.
    + intros ->. apply Hkey. set_solver.
  - apply stringify_id_other. intros ->. apply Hkey. set_solver.
Qed.

Lemma listing_keeps_other_fields_witness :
  (exists items : list document,
      get_profiles sample_str sample_world = (Return items, sample_world)
      /\ same_except [lit "_id"]
                     (records_of (db_store sample_database) (lit "profile")) items)
  /\ (exists items : list document,
        list_metrics sample_str (Some 50) sample_world = (Return items, sample_world)
        /\ same_except [lit "_id"; lit "period"]
                       (cap (Some 50)
                            (records_of (db_store sample_database) (lit "metric")))
                       items)
  /\ (exists items : list document,
        list_reports sample_str (Some 50) sample_world = (Return items, sample_world)
        /\ same_except [lit "_id"]
                       (cap (Some 50)
                            (records_of (db_store sample_database) (lit "report")))
                       items).
Proof.
  apply (listing_keeps_other_fields sample_str sample_world sample_database (Some 50)).
  reflexivity.
Defined.

(** ** The other fields of the diagnostic record *)

(** X8: in every state of the storage the fields [database_url] and
    [database_name] of the diagnostic record tell only whether the
    environment variables [DATABASE_URL] and [DATABASE_NAME] are set to a
    non-empty value: what the probe wrote there before, the name of the
    database included, never reaches the answer. *)
Theorem test_database_reports_environment_only (w : world) :
  exists r : diagnostics,
    test_database w = Return r
    /\ backend r = CHECK_MARK ++ lit " Running"
    /\ database_url r
       = VStr (if getenv_truthy w (lit "DATABASE_URL")
               then CHECK_MARK ++ lit " Set" else CROSS_MARK ++ lit " Not Set")
    /\ database_name r
       = VStr (if getenv_truthy w (lit "DATABASE_NAME")
               then CHECK_MARK ++ lit " Set" else CROSS_MARK ++ lit " Not Set").
Proof.
  destruct w as [[d|] env]; cycle 1.
  { eexists. repeat split; reflexivity. }
  destruct d as [nm lst st].
  unfold test_database, probe_database, try_except, bind, lift, hasattr_name,
    getattr_name; cbn.
  destruct nm as [|v|e]; cbn; destruct lst as [l|e']; cbn;
    eexists; repeat split; reflexivity.
Qed.

(** X9: [connection_status] is ["Connected"] exactly when the database
    is configured and reading its name does not raise; [collections] holds
    the first ten names when the listing was reached and returned, and is
    empty otherwise; and the status ["Connected & Working"] is reported
    exactly in that case. *)
Theorem test_database_connection_fields (w : world) :
  exists r : diagnostics,
    test_database w = Return r
    /\ connection_status r
       = (if name_probe_passes w then lit "Connected" else lit "Not Connected")
    /\ collection_names r
       = match listed_collections w with
         | Some l => take 10 l
         | None => []
         end
    /\ (database_status r = CHECK_MARK ++ lit " Connected & Working"
        <-> is_Some (listed_collections w)).
Proof.
  destruct w as [[d|] env]; cycle 1.
  { eexists. repeat split; try reflexivity.
    - cbn. intros H. discriminate.
    - cbn. intros [l H]. discriminate. }
  destruct d as [nm lst st].
  unfold test_database, probe_database, try_except, bind, lift, hasattr_name,
    getattr_name, listed_collections, name_probe_passes; cbn.
  destruct nm as [|v|e]; cbn; destruct lst as [l|e']; cbn;
    eexists; (split; [reflexivity|]); (split; [reflexivity|]);
    (split; [reflexivity|]); cbn; split; intros H;
    try reflexivity; try (eexists; reflexivity);
    try (destruct H; discriminate); try discriminate.
Qed.

(** ** The prediction route *)

Lemma baseline_predict_outcome (sales : float) (orders : Z) (marketing_spend : float) :
  if orders_value_finite orders marketing_spend
  then exists (psales : float) (porders : Z),
         baseline_predict sales orders marketing_spend = Return (psales, porders)
  else exists e : exn,
         baseline_predict sales orders marketing_spend = Raise e
         /\ is_arithmetic_error e = true.
Proof.
  unfold orders_value_finite, baseline_predict.
  destruct (of_int orders) as [f|e] eqn:Hf; cbn.
  - destruct (fadd (fmul f f1_03) (fmul marketing_spend f0_02))
      as [s'|s'| |s' m' e']; cbn.
    + eexists _, _. reflexivity.
    + eexists. split; reflexivity.
    + eexists. split; reflexivity.
    + eexists _, _. reflexivity.
  - exists e. split; [reflexivity|].
    unfold of_int in Hf.
    destruct (binary_normalize prec emax orders 0 false); try discriminate;
      injection Hf as <-; reflexivity.
Qed.



(** X11: when the prediction returns, [predict] stores one record in the
    collection ["prediction"]: the four request fields together with the
    two predicted values, and the values it answers with are the ones it
    stored. *)
Theorem predict_stores_what_it_answers
  (py_str : value -> pystr) (w : world) (d : database) (payload : PredictIn) :
  db w = Some d ->
  orders_value_finite (pi_orders payload) (pi_marketing_spend payload) = true ->
  exists (psales : float) (porders : Z),
    baseline_predict (pi_sales payload) (pi_orders payload)
                     (pi_marketing_spend payload) = Return (psales, porders)
    /\ fst (predict py_str payload w)
       = Return (list_to_map
                   [ (lit "id", VStr (py_str (VObjectId (next_oid (db_store d)))));
                     (lit "predicted_sales", VFloat psales);
                     (lit "predicted_orders", VInt porders) ])
    /\ created py_str w d (lit "prediction")
               (list_to_map
                  [ (lit "period", VDate (pi_period payload));
                    (lit "sales", VFloat (pi_sales payload));
                    (lit "orders", VInt (pi_orders payload));
                    (lit "marketing_spend", VFloat (pi_marketing_spend payload));
                    (lit "predicted_sales", VFloat psales);
                    (lit "predicted_orders", VInt porders) ])
               (predict py_str payload w).
Proof.
  intros Hd Hfin.
  pose proof (baseline_predict_outcome (pi_sales payload) (pi_orders payload)
                (pi_marketing_spend payload)) as H.
  rewrite Hfin in H. destruct H as (ps & po & H).
  exists ps, po. split; [exact H|].
  rewrite (predict_some py_str w d payload ps po Hd H). cbn [fst].
  split; [reflexivity|].
  unfold created. eexists _, _. cbn [fst snd].
  split; [reflexivity|]. split; [reflexivity|]. split; [reflexivity|].
  split; [reflexivity|].
  cbn [db_store with_store].
  replace (list_to_map
             [ (lit "period", VDate (pi_period payload));
               (lit "sales", VFloat (pi_sales payload));
               (lit "orders", VInt (pi_orders payload));
               (lit "marketing_spend", VFloat (pi_marketing_spend payload));
               (lit "predicted_sales", VFloat ps);
               (lit "predicted_orders", VInt po) ] : document)
    with (<[lit "predicted_orders" := VInt po]>
            (<[lit "predicted_sales" := VFloat ps]> (PredictIn_model_dump payload)))
    by reflexivity.
  apply inserted_appended.
Qed.

Lemma predict_stores_what_it_answers_witness :
  exists (psales : float) (porders : Z),
    baseline_predict (pi_sales sample_PredictIn) (pi_orders sample_PredictIn)
                     (pi_marketing_spend sample_PredictIn) = Return (psales, porders)
    /\ fst (predict sample_str sample_PredictIn sample_world)
       = Return (list_to_map
                   [ (lit "id", VStr (sample_str
                                        (VObjectId (next_oid (db_store sample_database)))));
                     (lit "predicted_sales", VFloat psales);
                     (lit "predicted_orders", VInt porders) ])
    /\ created sample_str sample_world sample_database (lit "prediction")
               (list_to_map
                  [ (lit "period", VDate (pi_period sample_PredictIn));
                    (lit "sales", VFloat (pi_sales sample_PredictIn));
                    (lit "orders", VInt (pi_orders sample_PredictIn));
                    (lit "marketing_spend", VFloat (pi_marketing_spend sample_PredictIn));
                    (lit "predicted_sales", VFloat psales);
                    (lit "predicted_orders", VInt porders) ])
               (predict sample_str sample_PredictIn sample_world).
Proof.
  apply (predict_stores_what_it_answers sample_str sample_world sample_database
           sample_PredictIn).
  - reflexivity.
  - vm_compute. reflexivity.
Defined.

(** ** Predictions against the inputs *)

(** A float is the rounding of its own value, at every precision of the
    exact result. *)
Lemma frnd_scale_rank (x : float) (r p : Z) :
  representable x = true -> is_finite x = true -> rank x = Some r -> 0 <= p ->
  frnd p (r * 2 ^ p) = r.
Proof.
  intros Hrep Hfin Hr Hp.
  destruct x as [s|s| |s m e]; try discriminate.
  - cbn in Hr. injection Hr as <-. apply frnd_0, Hp.
  - cbn [rank] in Hr. injection Hr as <-.
    apply representable_bounds in Hrep as [Hm He].
    assert (Hl : Z.log2 (Z.pos m) < 53) by (apply Z.log2_lt_pow2; lia).
    destruct (rank_exact s m m e e p) as [Hx _]; try lia.
    all: try (unfold grid_exponent; lia).
    destruct (Z.leb_spec e 971); [|lia].
    cbn [rank] in Hx. injection Hx as Hx.
    replace (signed s (Z.pos m * 2 ^ (e + 1074)) * 2 ^ p)
      with (signed s (Z.pos m * 2 ^ (e + 1074 + p))); [symmetry; exact Hx|].
    rewrite (Z.pow_add_r 2 (e + 1074) p) by lia.
    unfold signed. destruct s; lia.
Qed.

(** The product with a coefficient of at least one is not below a
    non-negative operand; with any coefficient it keeps the sign. *)
Lemma fmul_rank_sign (x : float) (mc : positive) (ec rx : Z) :
  representable x = true -> is_finite x = true -> rank x = Some rx -> ec <= 0 ->
  exists r : Z,
    rank (fmul x (S754_finite false mc ec)) = Some r
    /\ representable (fmul x (S754_finite false mc ec)) = true
    /\ Z.abs r <= INF_RANK
    /\ (0 <= rx -> 0 <= r)
    /\ (rx <= 0 -> r <= 0)
    /\ (0 <= rx -> 2 ^ (- ec) <= Z.pos mc -> rx <= r).
Proof.
  intros Hrep Hfin Hr Hec.
  destruct (fmul_rank x mc ec rx Hrep Hfin Hr Hec) as [H R].
  exists (frnd (- ec) (rx * Z.pos mc)).
  split; [exact H|]. split; [exact R|].
  pose proof (frnd_bounds (- ec) (rx * Z.pos mc)) as Hb.
  pose proof (frnd_0 (- ec) ltac:(lia)) as Hz.
  split; [lia|]. split; [|split].
  - intros Hx. rewrite <- Hz. apply frnd_mono; [lia | nia].
  - intros Hx. rewrite <- Hz. apply frnd_mono; [lia | nia].
  - intros Hx Hc.
    rewrite <- (frnd_scale_rank x rx (- ec) Hrep Hfin Hr ltac:(lia)) at 1.
    apply frnd_mono; [lia | nia].
Qed.

(** A sum of two floats, the second not negative, is not below a finite
    lower bound of the first. *)
Lemma eadd_ge (a b lo : Z) :
  lo <= a -> 0 <= b -> Z.abs a <= INF_RANK -> Z.abs b <= INF_RANK ->
  Z.abs lo < INF_RANK -> frnd 0 lo = lo ->
  exists r : Z, eadd a b = Some r /\ lo <= r.
Proof.
  intros Hlo Hb Ba Bb Blo Hex. pose proof INF_RANK_pos.
  pose proof (frnd_mono 0 lo (a + b) ltac:(lia) ltac:(lia)).
  unfold eadd.
  repeat match goal with
         | |- context [Z.eqb ?u ?v] => destruct (Z.eqb_spec u v)
         end; try (exfalso; lia); eexists; (split; [reflexivity|]); lia.
Qed.

Lemma frnd_rank (x : float) (r : Z) :
  representable x = true -> is_finite x = true -> rank x = Some r ->
  frnd 0 r = r.
Proof.
  intros Hrep Hfin Hr.
  pose proof (frnd_scale_rank x r 0 Hrep Hfin Hr ltac:(lia)) as H.
  rewrite Z.mul_1_r in H. exact H.
Qed.

Lemma predicted_sales_ge (sales marketing_spend : float) :
  valid sales = true -> valid marketing_spend = true ->
  is_finite sales = true -> is_finite marketing_spend = true ->
  fle f0_0 marketing_spend ->
  fle sales (max0 (fadd (fmul sales f1_05) (fmul marketing_spend f0_5))).
Proof.
  intros Vs Vm Fs Fm Lm.
  pose proof (valid_representable _ Vs Fs) as Rs.
  pose proof (valid_representable _ Vm Fm) as Rm.
  destruct (rank_finite _ Rs Fs) as (rs & Hrs & Bs).
  destruct (rank_finite _ Rm Fm) as (rm & Hrm & Bm).
  unfold fle in Lm. rewrite Hrm in Lm. cbn [rank f0_0] in Lm.
  destruct (fmul_rank_sign sales 4728779608739021 (-52) rs Rs Fs Hrs ltac:(lia))
    as (a & Ha & Ra & Ba & _ & _ & Hge).
  destruct (fmul_rank_sign marketing_spend 4503599627370496 (-53) rm Rm Fm Hrm
              ltac:(lia)) as (b & Hb & Rb & Bb & Hpos & _ & _).
  fold f1_05 in Ha, Ra. fold f0_5 in Hb, Rb.
  destruct (fadd_rank _ _ a b Ra Rb Ha Hb) as [Hs _].
  unfold fle. rewrite Hrs, max0_rank, Hs.
  destruct (Z.le_gt_cases 0 rs) as [Hnn|Hneg].
  - assert (Ha1 : rs <= a) by (apply Hge; [exact Hnn | vm_compute; discriminate]).
    pose proof (frnd_rank sales rs Rs Fs Hrs) as Hex.
    destruct (eadd_ge a b rs Ha1 (Hpos Lm) Ba Bb Bs Hex) as (r & Hr & Hle).
    rewrite Hr. cbn [opt0]. lia.
  - destruct (eadd a b) as [r|]; cbn [opt0]; lia.
Qed.

Lemma of_int_exact (n : Z) (f : float) :
  0 <= n < 2 ^ 53 -> of_int n = Return f ->
  rank f = Some (n * 2 ^ 1074) /\ representable f = true /\ is_finite f = true.
Proof.
  intros Hn Hf. destruct (of_int_rank n f Hf) as (Hr & Rf & Ff).
  split; [|split; assumption]. rewrite Hr. f_equal.
  destruct (Z.eq_dec n 0) as [->|Hne]; [apply frnd_0; lia|].
  pose proof (frnd_representable false (Z.to_pos n) 0) as H.
  rewrite Z2Pos.id in H by lia. cbn [signed] in H.
  change (0 + 1074) with 1074 in H. apply H.
  apply representable_finite; [rewrite Z2Pos.id by lia; lia | lia].
Qed.

Lemma predicted_orders_ge (f : float) (orders n : Z) (marketing_spend : float) :
  valid marketing_spend = true -> is_finite marketing_spend = true ->
  fle f0_0 marketing_spend ->
  0 <= orders < 2 ^ 53 ->
  of_int orders = Return f ->
  to_int (fadd (fmul f f1_03) (fmul marketing_spend f0_02)) = Return n ->
  orders <= n.
Proof.
  intros Vm Fm Lm Ho Ef En.
  pose proof (valid_representable _ Vm Fm) as Rm.
  destruct (rank_finite _ Rm Fm) as (rm & Hrm & Bm).
  unfold fle in Lm. rewrite Hrm in Lm. cbn [rank f0_0] in Lm.
  destruct (of_int_exact orders f Ho Ef) as (Hro & Rf & Ff).
  assert (H1074 : 0 < 2 ^ 1074) by (apply pow2_pos; lia).
  destruct (fmul_rank_sign f 4638707616191611 (-52) _ Rf Ff Hro ltac:(lia))
    as (a & Ha & Ra & Ba & _ & _ & Hge).
  destruct (fmul_rank_sign marketing_spend 5764607523034235 (-58) rm Rm Fm Hrm
              ltac:(lia)) as (b & Hb & Rb & Bb & Hpos & _ & _).
  fold f1_03 in Ha, Ra. fold f0_02 in Hb, Rb.
  destruct (fadd_rank _ _ a b Ra Rb Ha Hb) as [Hs Hp].
  pose proof (to_int_finite _ _ En) as Fn.
  assert (Pn : representable (fadd (fmul f f1_03) (fmul marketing_spend f0_02)) = true).
  { apply Hp, finite_not_nan, Fn. }
  destruct (rank_finite _ Rf Ff) as (ro & Hro' & Bo).
  rewrite Hro in Hro'. injection Hro' as <-.
  assert (Ha1 : orders * 2 ^ 1074 <= a)
    by (apply Hge; [nia | vm_compute; discriminate]).
  pose proof (frnd_rank f _ Rf Ff Hro) as Hex.
  destruct (eadd_ge a b (orders * 2 ^ 1074) Ha1 (Hpos Lm) Ba Bb Bo Hex)
    as (r & Hr & Hle).
  rewrite Hr in Hs.
  rewrite (to_int_rank _ r n Pn Hs En).
  rewrite <- (Z.quot_mul orders (2 ^ 1074)) at 1 by lia.
  apply Z.quot_le_mono; lia.
Qed.

(** X12: for a finite marketing spend that is not negative and an order
    count below [2^53] in magnitude, the call returns and no prediction is
    below its input: [predicted_sales >= sales] and
    [predicted_orders >= orders]. *)
Theorem predictions_not_below_inputs
  (sales : float) (orders : Z) (marketing_spend : float) :
  valid sales = true -> valid marketing_spend = true ->
  is_finite sales = true -> is_finite marketing_spend = true ->
  fle f0_0 marketing_spend -> Z.abs orders < 2 ^ 53 ->
  exists (predicted_sales : float) (predicted_orders : Z),
    baseline_predict sales orders marketing_spend
    = Return (predicted_sales, predicted_orders)
    /\ fle sales predicted_sales
    /\ fge predicted_sales sales = true
    /\ orders <= predicted_orders.
Proof.
  intros Vs Vm Fs Fm Lm Ho.
  assert (Hr : Z.abs orders <= 2 ^ 1000).
  { assert (2 ^ 53 <= 2 ^ 1000) by (apply Z.pow_le_mono_r; lia). lia. }
  destruct (baseline_predict_returns_in_range sales orders marketing_spend Vm Fm Hr)
    as (n & _ & Hn & Hbp).
  exists (spec_predicted_sales sales marketing_spend), n.
  split; [exact Hbp|].
  pose proof (predicted_sales_ge sales marketing_spend Vs Vm Fs Fm Lm) as Hle.
  split; [exact Hle|]. split.
  - apply fle_fge; [exact Vs | apply predicted_sales_valid; assumption | exact Hle].
  - destruct (Z.le_gt_cases 0 orders) as [Hnn|Hneg]; [|lia].
    unfold baseline_predict in Hbp.
    destruct (of_int orders) as [f|] eqn:Ef; [|discriminate].
    cbn in Hbp.
    destruct (to_int (fadd (fmul f f1_03) (fmul marketing_spend f0_02)))
      as [k|] eqn:Ek; [|discriminate].
    cbn in Hbp. injection Hbp as <-.
    pose proof (predicted_orders_ge f orders k marketing_spend Vm Fm Lm
                  ltac:(lia) Ef Ek).
    rewrite clamp_int. lia.
Qed.

Lemma predictions_not_below_inputs_witness :
  exists (predicted_sales : float) (predicted_orders : Z),
    baseline_predict (S754_finite false 8796093022208000 (-43)) 50
                     (S754_finite false 7036874417766400 (-46))
    = Return (predicted_sales, predicted_orders)
    /\ fle (S754_finite false 8796093022208000 (-43)) predicted_sales
    /\ fge predicted_sales (S754_finite false 8796093022208000 (-43)) = true
    /\ 50 <= predicted_orders.
Proof.
  apply (predictions_not_below_inputs (S754_finite false 8796093022208000 (-43)) 50
           (S754_finite false 7036874417766400 (-46)));
    try reflexivity; apply fleb_fle; vm_compute; reflexivity.
Defined.

Lemma max0_of_nonpositive (x : float) (r : Z) :
  valid x = true -> rank x = Some r -> r <= 0 -> max0 x = f0_0.
Proof.
  intros V Hr Hle. unfold max0, fgt, f0_0, SFltb.
  destruct x as [s|s| |s m e]; try reflexivity.
  - destruct s; [reflexivity|]. cbn in Hr. injection Hr as <-.
    pose proof INF_RANK_pos. lia.
  - destruct s; [reflexivity|].
    pose proof (valid_rank_bounds _ _ _ V) as B.
    cbn [rank signed] in Hr. injection Hr as <-. cbn [signed] in B. lia.
Qed.

(** X13: inputs that are all zero or negative predict exactly [0.0] and
    [0]: the clamps at zero absorb them. *)
Theorem nonpositive_inputs_predict_zero
  (sales : float) (orders : Z) (marketing_spend : float) :
  valid sales = true -> valid marketing_spend = true ->
  is_finite sales = true -> is_finite marketing_spend = true ->
  fle sales f0_0 -> fle marketing_spend f0_0 -> - 2 ^ 1000 <= orders <= 0 ->
  baseline_predict sales orders marketing_spend = Return (f0_0, 0).
Proof.
  intros Vs Vm Fs Fm Ls Lm Ho.
  destruct (baseline_predict_returns_in_range sales orders marketing_spend Vm Fm
              ltac:(lia)) as (n & _ & Hn & Hbp).
  destruct (predict_monotone_joint sales f0_0 orders 0 marketing_spend f0_0
              (spec_predicted_sales sales marketing_spend) f0_0 n 0)
    as [[Hps _] Hpo]; try assumption; try reflexivity; try lia.
  rewrite Hbp. f_equal. f_equal; [|lia].
  unfold spec_predicted_sales in *.
  set (x := fadd (fmul sales f1_05) (fmul marketing_spend f0_5)) in *.
  unfold fle in Hps. rewrite max0_rank in Hps. cbn [rank f0_0] in Hps.
  destruct (rank x) as [r|] eqn:Hr.
  - apply (max0_of_nonpositive x r); [|exact Hr|cbn [opt0] in Hps; lia].
    apply fadd_valid; apply fmul_valid; try assumption; try reflexivity; lia.
  - destruct x; try discriminate. reflexivity.
Qed.

Lemma nonpositive_inputs_predict_zero_witness :
  baseline_predict (S754_finite true 8796093022208000 (-43)) (-50)
                   (S754_finite true 7036874417766400 (-46))
  = Return (f0_0, 0).
Proof.
  apply (nonpositive_inputs_predict_zero (S754_finite true 8796093022208000 (-43))
           (-50) (S754_finite true 7036874417766400 (-46)));
    try reflexivity; try (apply fleb_fle; vm_compute; reflexivity).
  split; [vm_compute; discriminate | lia].
Defined.

(** ** Defaults and undeclared keys *)

Lemma agree_on_lookup (fields : list pystr) (body body' : document) (k : pystr) :
  agree_on fields body body' -> k ∈ fields -> body !! k = body' !! k.
Proof. intros H Hk. exact (H k Hk). Qed.

Lemma validate_agree_on (body body' : document) :
  (agree_on ProfileIn_fields body body' ->
   validate_ProfileIn body = validate_ProfileIn body')
  /\ (agree_on MetricIn_fields body body' ->
      validate_MetricIn body = validate_MetricIn body'
      /\ validate_PredictIn body = validate_PredictIn body')
  /\ (agree_on ReportIn_fields body body' ->
      validate_ReportIn body = validate_ReportIn body').
Proof.
  split; [|split]; intros H; [|split|];
    unfold validate_ProfileIn, validate_MetricIn, validate_PredictIn,
      validate_ReportIn;
    rewrite !(agree_on_lookup _ _ _ _ H) by (vm_compute; set_solver);
    reflexivity.
Qed.

(** X14: a key of the body that the route's model does not declare has no
    effect: two bodies that agree on the declared fields get the same
    answer and leave the same state, so nothing but the declared fields
    can reach the storage. *)
Theorem undeclared_keys_are_ignored
  (py_str : value -> pystr) (body body' : document) (w : world) :
  (agree_on ProfileIn_fields body body' ->
   post_api_profile py_str body w = post_api_profile py_str body' w)
  /\ (agree_on MetricIn_fields body body' ->
      post_api_metrics py_str body w = post_api_metrics py_str body' w
      /\ post_api_predict py_str body w = post_api_predict py_str body' w)
  /\ (agree_on ReportIn_fields body body' ->
      post_api_reports py_str body w = post_api_reports py_str body' w).
Proof.
  destruct (validate_agree_on body body') as (Hp & Hm & Hr).
  unfold post_api_profile, post_api_metrics, post_api_predict, post_api_reports,
    validated.
  split; [|split]; intros H.
  - rewrite (Hp H). reflexivity.
  - destruct (Hm H) as [-> ->]. split; reflexivity.
  - rewrite (Hr H). reflexivity.
Qed.

(** X15: the defaults of the request models are stored.  A profile posted
    with its two required fields only is stored with [None] under the four
    optional ones; a report posted with its title only is stored with
    [None] as notes and ["open"] as status. *)
Theorem defaults_are_stored
  (py_str : value -> pystr) (w : world) (d : database)
  (owner business report_title : pystr) :
  db w = Some d ->
  created py_str w d (lit "profile")
          (list_to_map
             [ (lit "owner_name", VStr owner); (lit "business_name", VStr business);
               (lit "email", VNone); (lit "phone", VNone);
               (lit "address", VNone); (lit "industry", VNone) ])
          (post_api_profile py_str
             (list_to_map [ (lit "owner_name", VStr owner);
                            (lit "business_name", VStr business) ]) w)
  /\ created py_str w d (lit "report")
             (list_to_map
                [ (lit "title", VStr report_title); (lit "notes", VNone);
                  (lit "status", VStr (lit "open")) ])
             (post_api_reports py_str
                (list_to_map [ (lit "title", VStr report_title) ]) w).
Proof.
  intros Hd.
  pose proof (create_appends_some py_str w d Hd) as (Hp & _ & Hr).
  split.
  - exact (Hp {| owner_name := owner; business_name := business; email := None;
                phone := None; address := None; industry := None |}).
  - exact (Hr {| title := report_title; notes := None; status := lit "open" |}).
Qed.

Lemma defaults_are_stored_witness :
  created sample_str sample_world sample_database (lit "profile")
          (list_to_map
             [ (lit "owner_name", VStr (lit "Sari"));
               (lit "business_name", VStr (lit "Warung Sari"));
               (lit "email", VNone); (lit "phone", VNone);
               (lit "address", VNone); (lit "industry", VNone) ])
          (post_api_profile sample_str
             (list_to_map [ (lit "owner_name", VStr (lit "Sari"));
                            (lit "business_name", VStr (lit "Warung Sari")) ])
             sample_world)
  /\ created sample_str sample_world sample_database (lit "report")
             (list_to_map
                [ (lit "title", VStr (lit "April")); (lit "notes", VNone);
                  (lit "status", VStr (lit "open")) ])
             (post_api_reports sample_str
                (list_to_map [ (lit "title", VStr (lit "April")) ]) sample_world).
Proof.
  apply (defaults_are_stored sample_str sample_world sample_database
           (lit "Sari") (lit "Warung Sari") (lit "April")).
  reflexivity.
Defined.
